(** * imgopt: a shallow embedding of the image bulk optimizer

    The development follows [imgopt.py]: the [Stats] helper, the image
    helpers ([strip_exif], [slug_for], [call_oxipng], [optimize_image]),
    the file walk and the background worker of the GUI.  The image
    library, the file system and the external [oxipng] process are
    collaborators of the program; they are modelled by a file-system map
    and by an explicit record of oracles ([World]) that decides, call by
    call, which primitive raises and what the encoders produce. *)

From Stdlib Require Import ZArith QArith Lia Ascii.
From Stdlib Require String.
From stdpp Require Import base option list strings pretty gmap.

Local Open Scope Z_scope.

(** ** Python strings *)

Module PyStr.

(** [s[i:]] and [s[:i]] for [0 <= i]. *)
Fixpoint drop (i : nat) (s : string) : string :=
  match i, s with
  | O, _ => s
  | S i', String _ s' => drop i' s'
  | S _, EmptyString => EmptyString
  end.

Fixpoint take (i : nat) (s : string) : string :=
  match i, s with
  | O, _ => EmptyString
  | S i', String c s' => String c (take i' s')
  | S _, EmptyString => EmptyString
  end.

Definition is_dot (c : ascii) : bool := Ascii.eqb c "."%char.

(** [s.rfind('.')]; Python's [-1] is [None]. *)
Fixpoint rfind_dot (s : string) : option nat :=
  match s with
  | EmptyString => None
  | String c s' =>
      match rfind_dot s' with
      | Some i => Some (S i)
      | None => if is_dot c then Some O else None
      end
  end.

(** [str.lower] on the ASCII range (the only range the extension tests
    of the program look at). *)
Definition lower_ascii (c : ascii) : ascii :=
  let n := Ascii.nat_of_ascii c in
  if ((65 <=? n) && (n <=? 90))%nat then Ascii.ascii_of_nat (n + 32) else c.

Fixpoint lower (s : string) : string :=
  match s with
  | EmptyString => EmptyString
  | String c s' => String (lower_ascii c) (lower s')
  end.

(** [s.lstrip('.')]. *)
Fixpoint lstrip_dot (s : string) : string :=
  match s with
  | String c s' => if is_dot c then lstrip_dot s' else s
  | EmptyString => EmptyString
  end.

(** [sep.join(parts)]. *)
Fixpoint join (sep : string) (parts : list string) : string :=
  match parts with
  | [] => EmptyString
  | [p] => p
  | p :: rest => p +:+ sep +:+ join sep rest
  end.

(** Substring test, [needle in s]. *)
Fixpoint contains (needle s : string) : bool :=
  String.prefix needle s ||
  match s with
  | EmptyString => false
  | String _ s' => contains needle s'
  end.

End PyStr.

(** ** pathlib.PurePosixPath

    A path is the list of its components below the root; the last one is
    its [name]. *)

Module Path.

Definition t := list string.

Definition name (p : t) : string := List.last p EmptyString.
Definition parent (p : t) : t := List.removelast p.

(** [p / child] for a relative one-component [child]. *)
Definition div (p : t) (child : string) : t := p ++ [child].

(** [str(p)]. *)
Definition str (p : t) : string := "/" +:+ PyStr.join "/" p.

(** Suffix and stem of a file name:
    [i = name.rfind('.'); 0 < i < len(name) - 1]. *)
Definition split_at (nm : string) : option nat :=
  match PyStr.rfind_dot nm with
  | Some i =>
      if ((0 <? i) && (i <? String.length nm - 1))%nat then Some i else None
  | None => None
  end.

Definition name_suffix (nm : string) : string :=
  match split_at nm with
  | Some i => PyStr.drop i nm
  | None => EmptyString
  end.

Definition name_stem (nm : string) : string :=
  match split_at nm with
  | Some i => PyStr.take i nm
  | None => nm
  end.

Definition suffix (p : t) : string := name_suffix (name p).
Definition stem (p : t) : string := name_stem (name p).

Definition with_name (p : t) (nm : string) : t := parent p ++ [nm].

(** [with_suffix]: [name + suffix] when there is no old suffix,
    [name[:-len(old_suffix)] + suffix] otherwise. *)
Definition with_suffix (p : t) (sfx : string) : t :=
  with_name p (name_stem (name p) +:+ sfx).

(** [with_stem(stem) = with_name(stem + self.suffix)]. *)
Definition with_stem (p : t) (st : string) : t :=
  with_name p (st +:+ suffix p).

End Path.

(** ** hashlib.blake2b(digest_size=4)

    BLAKE2b as in RFC 7693, unkeyed, on 64-bit words held in [Z] with the
    wrap-around written out. *)

Module Blake2b.

Definition mask64 : Z := 18446744073709551615.
Definition wrap (x : Z) : Z := Z.land x mask64.
Definition add64 (x y : Z) : Z := wrap (x + y).
Definition rotr64 (x : Z) (n : Z) : Z :=
  wrap (Z.lor (Z.shiftr x n) (Z.shiftl x (64 - n))).

Definition IV : list Z :=
  [ 0x6a09e667f3bcc908; 0xbb67ae8584caa73b; 0x3c6ef372fe94f82b;
    0xa54ff53a5f1d36f1; 0x510e527fade682d1; 0x9b05688c2b3e6c1f;
    0x1f83d9abfb41bd6b; 0x5be0cd19137e2179 ].

Definition SIGMA : list (list nat) :=
  [ [0; 1; 2; 3; 4; 5; 6; 7; 8; 9; 10; 11; 12; 13; 14; 15];
    [14; 10; 4; 8; 9; 15; 13; 6; 1; 12; 0; 2; 11; 7; 5; 3];
    [11; 8; 12; 0; 5; 2; 15; 13; 10; 14; 3; 6; 7; 1; 9; 4];
    [7; 9; 3; 1; 13; 12; 11; 14; 2; 6; 5; 10; 4; 0; 15; 8];
    [9; 0; 5; 7; 2; 4; 10; 15; 14; 1; 11; 12; 6; 8; 3; 13];
    [2; 12; 6; 10; 0; 11; 8; 3; 4; 13; 7; 5; 15; 14; 1; 9];
    [12; 5; 1; 15; 14; 13; 4; 10; 0; 7; 6; 3; 9; 2; 8; 11];
    [13; 11; 7; 14; 12; 1; 3; 9; 5; 0; 15; 4; 8; 6; 2; 10];
    [6; 15; 14; 9; 11; 3; 0; 8; 12; 2; 13; 7; 1; 4; 10; 5];
    [10; 2; 8; 4; 7; 6; 1; 5; 15; 11; 9; 14; 3; 12; 13; 0] ]%nat.

Definition get (v : list Z) (i : nat) : Z := List.nth i v 0.

(** The mixing function [G] on the work vector. *)
Definition G (v : list Z) (a b c d : nat) (x y : Z) : list Z :=
  let va := add64 (add64 (get v a) (get v b)) x in
  let vd := rotr64 (Z.lxor (get v d) va) 32 in
  let vc := add64 (get v c) vd in
  let vb := rotr64 (Z.lxor (get v b) vc) 24 in
  let va := add64 (add64 va vb) y in
  let vd := rotr64 (Z.lxor vd va) 16 in
  let vc := add64 vc vd in
  let vb := rotr64 (Z.lxor vb vc) 63 in
  <[a := va]> (<[b := vb]> (<[c := vc]> (<[d := vd]> v))).

Definition round (m : list Z) (v : list Z) (r : nat) : list Z :=
  let s := List.nth (r mod 10) SIGMA [] in
  let w i := get m (List.nth i s O) in
  let v := G v 0 4 8 12 (w 0%nat) (w 1%nat) in
  let v := G v 1 5 9 13 (w 2%nat) (w 3%nat) in
  let v := G v 2 6 10 14 (w 4%nat) (w 5%nat) in
  let v := G v 3 7 11 15 (w 6%nat) (w 7%nat) in
  let v := G v 0 5 10 15 (w 8%nat) (w 9%nat) in
  let v := G v 1 6 11 12 (w 10%nat) (w 11%nat) in
  let v := G v 2 7 8 13 (w 12%nat) (w 13%nat) in
  G v 3 4 9 14 (w 14%nat) (w 15%nat).

(** The compression function [F]: [h] the chained state, [m] the sixteen
    message words, [t] the byte offset, [final] the last-block flag. *)
Definition F (h : list Z) (m : list Z) (t : Z) (final : bool) : list Z :=
  let v := h ++ IV in
  let v := <[12%nat := Z.lxor (get v 12) (wrap t)]> v in
  let v := <[13%nat := Z.lxor (get v 13) (wrap (Z.shiftr t 64))]> v in
  let v := if final then <[14%nat := Z.lxor (get v 14) mask64]> v else v in
  let v := List.fold_left (round m) (List.seq 0 12) v in
  List.map (fun i => Z.lxor (Z.lxor (get h i) (get v i)) (get v (i + 8)))
           (List.seq 0 8).

Definition byte_val (b : Byte.byte) : Z := Z.of_N (Byte.to_N b).

(** Little-endian word of (up to) eight bytes. *)
Fixpoint le_word (bs : list Byte.byte) : Z :=
  match bs with
  | [] => 0
  | b :: bs' => byte_val b + 256 * le_word bs'
  end.

(** The sixteen words of a block (short blocks are zero padded). *)
Definition words (block : list Byte.byte) : list Z :=
  List.map (fun i => le_word (List.firstn 8 (List.skipn (8 * i) block)))
           (List.seq 0 16).

(** All blocks but the last are compressed with [final = false]; the
    last (possibly empty or partial) block with the total length. *)
Fixpoint absorb (fuel : nat) (h : list Z) (t : Z) (data : list Byte.byte)
  : list Z :=
  match fuel with
  | O => F h (words data) (t + Z.of_nat (length data)) true
  | S fuel' =>
      if (128 <? length data)%nat
      then absorb fuel' (F h (words (List.firstn 128 data)) (t + 128) false)
                  (t + 128) (List.skipn 128 data)
      else F h (words data) (t + Z.of_nat (length data)) true
  end.

Definition le_bytes (w : Z) : list Z :=
  List.map (fun i => Z.land (Z.shiftr w (8 * Z.of_nat i)) 255) (List.seq 0 8).

(** [blake2b(data, digest_size=nn).digest()], bytes as values below 256. *)
Definition digest (nn : nat) (data : list Byte.byte) : list Z :=
  let h0 := <[0%nat := Z.lxor (get IV 0) (Z.lxor 0x01010000 (Z.of_nat nn))]> IV in
  let h := absorb (length data / 128) h0 0 data in
  List.firstn nn (List.concat (List.map le_bytes h)).

Definition hex_char (n : Z) : ascii :=
  List.nth (Z.to_nat (n mod 16))
           (String.list_ascii_of_string "0123456789abcdef") "0"%char.

Fixpoint hex (bs : list Z) : string :=
  match bs with
  | [] => EmptyString
  | b :: bs' => String (hex_char (b / 16)) (String (hex_char b) (hex bs'))
  end.

Definition hexdigest (nn : nat) (data : list Byte.byte) : string :=
  hex (digest nn data).

End Blake2b.

Definition bytes_of_nats (l : list nat) : list Byte.byte :=
  List.map (fun n => default Byte.x00 (Byte.of_N (N.of_nat n))) l.

(** ** Configuration *)

Definition SUPPORTED_EXTS : list string := [".jpg"; ".jpeg"; ".png"; ".webp"].

(** ** Stats helper *)

Record Stats := mkStats {
  total_files : Z;
  optimized_files : Z;
  total_original_bytes : Z;
  total_optimized_bytes : Z;
  failures : list string;
}.

(** [Stats.__init__] *)
Definition Stats_init : Stats := mkStats 0 0 0 0 [].

(** [Stats.percent_saved].  Python returns a float: [0.0], or the true
    division [100 * saved / total_original_bytes] of two integers, which
    is the double nearest to the exact quotient.  The quotient itself is
    kept here, as a rational. *)
Definition percent_saved (s : Stats) : Q :=
  if total_original_bytes s =? 0 then 0%Q
  else
    let saved := total_original_bytes s - total_optimized_bytes s in
    (inject_Z (100 * saved) / inject_Z (total_original_bytes s))%Q.

(** [Stats.add] *)
Definition add (s : Stats) (original_size new_size : Z) : Stats :=
  mkStats (total_files s + 1)
          (optimized_files s + 1)
          (total_original_bytes s + original_size)
          (total_optimized_bytes s + new_size)
          (failures s).

(** The states [Stats.add] goes through, one assignment after the other. *)
Definition add_steps (s : Stats) (original_size new_size : Z) : list Stats :=
  let s1 := mkStats (total_files s + 1) (optimized_files s)
                    (total_original_bytes s) (total_optimized_bytes s)
                    (failures s) in
  let s2 := mkStats (total_files s1) (optimized_files s1 + 1)
                    (total_original_bytes s1) (total_optimized_bytes s1)
                    (failures s1) in
  let s3 := mkStats (total_files s2) (optimized_files s2)
                    (total_original_bytes s2 + original_size)
                    (total_optimized_bytes s2) (failures s2) in
  let s4 := mkStats (total_files s3) (optimized_files s3)
                    (total_original_bytes s3)
                    (total_optimized_bytes s3 + new_size) (failures s3) in
  [s1; s2; s3; s4].

(** [stats.failures.append(entry)] *)
Definition failures_append (s : Stats) (entry : string) : Stats :=
  mkStats (total_files s) (optimized_files s)
          (total_original_bytes s) (total_optimized_bytes s)
          (failures s ++ [entry]).

(** ** Images *)

(** What the program reads of a [PIL.Image.Image]: mode, size, the raw
    pixel buffer ([tobytes()]) and the metadata dictionary ([info]:
    EXIF, ICC profile, text chunks). *)
Record Image := mkImage {
  mode : string;
  width : Z;
  height : Z;
  tobytes : list Byte.byte;
  info : list (string * string);
}.

(** [strip_exif]: a new image of the same mode and size that receives the
    pixels of [img] and nothing else. *)
Definition strip_exif (img : Image) : Image :=
  mkImage (mode img) (width img) (height img) (tobytes img) [].

(** [slug_for] *)
Definition hash_prefix_len : nat := Z.to_nat 32768.

Definition slug_digest (img : Image) : string :=
  Blake2b.hexdigest 4 (take hash_prefix_len (tobytes img)).

Definition slug_for (src : Path.t) (img : Image) : string :=
  let stem := Path.stem src in
  let ext := PyStr.lstrip_dot (PyStr.lower (Path.suffix src)) in
  let digest := slug_digest img in
  stem +:+ "-" +:+ pretty (width img) +:+ "x" +:+ pretty (height img)
       +:+ "-" +:+ digest +:+ "." +:+ ext.

(** The stem the specification gives for the output name,
    ["<stem>-<width>x<height>-<digest>"]. *)
Definition spec_stem (src : Path.t) (img : Image) : string :=
  Path.stem src +:+ "-" +:+ pretty (width img) +:+ "x" +:+ pretty (height img)
       +:+ "-" +:+ slug_digest img.

(** ** Encoder settings (the [save_kwargs] dictionary) *)

Inductive kwarg := KBool (b : bool) | KInt (n : Z).

(** Lines 121-133 of [optimize_image]: output extension and keyword
    arguments of [Image.save], from the lower-cased source suffix. *)
Definition save_plan (src_suffix_lower : string) (quality : Z)
    (convert_png_to_webp : bool) : string * gmap string kwarg :=
  let out_ext := src_suffix_lower in
  let save_kwargs : gmap string kwarg := {[ "optimize" := KBool true ]} in
  if bool_decide (out_ext ∈ [".jpg"; ".jpeg"]) then
    (out_ext, <["progressive" := KBool true]> (<["quality" := KInt quality]> save_kwargs))
  else if bool_decide (out_ext = ".png") then
    if convert_png_to_webp then
      (".webp", <["lossless" := KBool false]> (<["quality" := KInt quality]> save_kwargs))
    else
      (out_ext, <["compress_level" := KInt 9]> save_kwargs)
  else if bool_decide (out_ext = ".webp") then
    (out_ext, <["quality" := KInt quality]> save_kwargs)
  else (out_ext, save_kwargs).

(** ** The collaborators: file system, image library, oxipng *)

(** The exceptions the program tells apart.  All of them derive from
    [Exception]. *)
Inductive exn :=
| UnidentifiedImageError
| FileNotFoundError
| CalledProcessError
| OtherError (msg : string).

Definition exn_str (e : exn) : string :=
  match e with
  | UnidentifiedImageError => "cannot identify image file"
  | FileNotFoundError => "No such file or directory"
  | CalledProcessError => "Command returned non-zero exit status"
  | OtherError msg => msg
  end.

Inductive result (A : Type) :=
| Ok (a : A)
| Raise (e : exn).
Arguments Ok {A} a.
Arguments Raise {A} e.

(** A regular file: its size and, when the image library can identify it,
    the image it decodes to. *)
Record file := mkFile {
  st_size : N;
  decoded : option Image;
}.

(** The calls the program makes to its collaborators. *)
Inductive call :=
| CallOpen (p : Path.t)                                 (* Image.open(p) *)
| CallGetdata (p : Path.t)                              (* img.getdata() *)
| CallExists (p : Path.t)                               (* p.exists() *)
| CallMkdir (p : Path.t)                                (* p.mkdir(parents=True, exist_ok=True) *)
| CallSave (p : Path.t) (kw : gmap string kwarg)        (* im.save(p, **kw) *)
| CallOxipng (p : Path.t)                               (* subprocess.run(['oxipng', ..., str(p)], check=True) *)
| CallStat (p : Path.t).                                (* p.stat() *)

(** The world decides, from the calls made so far, whether the next call
    raises, what the encoder writes and what oxipng leaves behind. *)
Record World := mkWorld {
  fault : list call → call → option exn;
  encode : Image → Path.t → gmap string kwarg → file;
  oxipng_output : Path.t → file → file;
}.

(** Lines of the log queue. *)
Inductive log_line :=
| LogOptimized (src_name dest_name : string) (original_size new_size : Z)
    (* '✓ {src.name} → {dest_path.name} ({original_size/1024:.1f} KiB → {new_size/1024:.1f} KiB)' *)
| LogSkipped (src : string)
    (* '✗ Skipped (not an image): {src}' *)
| LogError (src : string) (exc : string).
    (* '✗ Error processing {src}: {exc}' *)

Inductive event :=
| LogLine (l : log_line)
| Progress (idx : Z)          (* ('PROGRESS', idx) *)
| Done (stats : Stats).       (* ('DONE', stats) *)

Record State := mkState {
  fs : gmap Path.t file;
  stats : Stats;
  log_queue : list event;
  history : list call;
}.

Definition set_fs (f : gmap Path.t file) (st : State) : State :=
  mkState f (stats st) (log_queue st) (history st).
Definition set_stats (s : Stats) (st : State) : State :=
  mkState (fs st) s (log_queue st) (history st).
Definition put (e : event) (st : State) : State :=
  mkState (fs st) (stats st) (log_queue st ++ [e]) (history st).
Definition record (c : call) (st : State) : State :=
  mkState (fs st) (stats st) (log_queue st) (history st ++ [c]).

(** Computations that read and write the state and may raise. *)
Definition M (A : Type) : Type := State → result A * State.

Definition ret {A} (a : A) : M A := fun st => (Ok a, st).
Definition bind {A B} (m : M A) (k : A → M B) : M B :=
  fun st =>
    match m st with
    | (Ok a, st') => k a st'
    | (Raise e, st') => (Raise e, st')
    end.
Definition raise {A} (e : exn) : M A := fun st => (Raise e, st).

#[global] Instance M_ret : MRet M := @ret.
#[global] Instance M_bind : MBind M := fun A B k m => bind m k.

(** A call to a collaborator: it is recorded, and either raises what the
    world injects or runs. *)
Definition prim {A} (w : World) (c : call) (run : M A) : M A :=
  fun st =>
    match fault w (history st) c with
    | Some e => (Raise e, record c st)
    | None => run (record c st)
    end.

(** [Image.open(src)] *)
Definition image_open (w : World) (src : Path.t) : M Image :=
  prim w (CallOpen src) (fun st =>
    match fs st !! src with
    | None => (Raise FileNotFoundError, st)
    | Some f =>
        match decoded f with
        | None => (Raise UnidentifiedImageError, st)
        | Some im => (Ok im, st)
        end
    end).

(** [strip_exif(im)] on an opened file: [getdata] loads the pixels. *)
Definition strip_exif_of (w : World) (src : Path.t) (im : Image) : M Image :=
  prim w (CallGetdata src) (mret (strip_exif im)).

(** [p.exists()] *)
Definition path_exists (w : World) (p : Path.t) : M bool :=
  prim w (CallExists p) (fun st => (Ok (bool_decide (is_Some (fs st !! p))), st)).

(** [p.mkdir(parents=True, exist_ok=True)]; directories are implicit in
    the file-system map. *)
Definition mkdir (w : World) (p : Path.t) : M unit :=
  prim w (CallMkdir p) (mret tt).

(** [im.save(p, **kw)]: creates or overwrites [p]. *)
Definition image_save (w : World) (im : Image) (p : Path.t)
    (kw : gmap string kwarg) : M unit :=
  prim w (CallSave p kw) (fun st => (Ok tt, set_fs (<[p := encode w im p kw]> (fs st)) st)).

(** [subprocess.run(['oxipng', '--strip', 'all', '--opt', 'max',
    '--preserve', str(p)], check=True, ...)]: rewrites [p] in place. *)
Definition run_oxipng (w : World) (p : Path.t) : M unit :=
  prim w (CallOxipng p) (fun st =>
    match fs st !! p with
    | None => (Raise CalledProcessError, st)
    | Some f => (Ok tt, set_fs (<[p := oxipng_output w p f]> (fs st)) st)
    end).

(** [p.stat().st_size] *)
Definition stat_size (w : World) (p : Path.t) : M Z :=
  prim w (CallStat p) (fun st =>
    match fs st !! p with
    | None => (Raise FileNotFoundError, st)
    | Some f => (Ok (Z.of_N (st_size f)), st)
    end).

(** [call_oxipng]: [FileNotFoundError] and [CalledProcessError] are
    swallowed, anything else is raised again. *)
Definition call_oxipng (w : World) (png_path : Path.t) : M unit :=
  fun st =>
    match run_oxipng w png_path st with
    | (Ok _, st') => (Ok tt, st')
    | (Raise FileNotFoundError, st') => (Ok tt, st')
    | (Raise CalledProcessError, st') => (Ok tt, st')
    | (Raise e, st') => (Raise e, st')
    end.

Definition stats_add (original_size new_size : Z) : M unit :=
  fun st => (Ok tt, set_stats (add (stats st) original_size new_size) st).

Definition log_put (l : log_line) : M unit :=
  fun st => (Ok tt, put (LogLine l) st).

(** Line 136-140 of [optimize_image]: the destination before the
    collision test, and the renaming on a collision. *)
Definition planned_dest (src dest_dir : Path.t) (im : Image) (out_ext : string)
  : Path.t :=
  let slug_name := slug_for src im in
  let dest_path := Path.div dest_dir slug_name in
  if bool_decide (out_ext ≠ PyStr.lower (Path.suffix src))
  then Path.with_suffix dest_path out_ext
  else dest_path.

Definition dup_of (dest_path : Path.t) : Path.t :=
  Path.with_stem dest_path (Path.stem dest_path +:+ "-dup").

(** The body of the [try] block of [optimize_image]. *)
Definition optimize_body (w : World) (src dest_dir : Path.t) (quality : Z)
    (convert_png_to_webp : bool) : M unit :=
  im ← image_open w src;
  im ← strip_exif_of w src im;
  let '(out_ext, save_kwargs) :=
    save_plan (PyStr.lower (Path.suffix src)) quality convert_png_to_webp in
  let dest_path := planned_dest src dest_dir im out_ext in
  taken ← path_exists w dest_path;
  let dest_path := if taken : bool then dup_of dest_path else dest_path in
  mkdir w (Path.parent dest_path);;
  image_save w im dest_path save_kwargs;;
  (if bool_decide (PyStr.lower (Path.suffix dest_path) = ".png")
      && negb convert_png_to_webp
   then call_oxipng w dest_path else mret tt);;
  original_size ← stat_size w src;
  new_size ← stat_size w dest_path;
  stats_add original_size new_size;;
  log_put (LogOptimized (Path.name src) (Path.name dest_path) original_size new_size).

(** [optimize_image]: the two handlers turn every exception of the body
    into a log line and an entry of [stats.failures]. *)
Definition optimize_image (w : World) (src dest_dir : Path.t) (quality : Z)
    (convert_png_to_webp : bool) (st : State) : State :=
  match optimize_body w src dest_dir quality convert_png_to_webp st with
  | (Ok _, st') => st'
  | (Raise UnidentifiedImageError, st') =>
      let st' := put (LogLine (LogSkipped (Path.str src))) st' in
      set_stats (failures_append (stats st') (Path.str src)) st'
  | (Raise exc, st') =>
      let st' := put (LogLine (LogError (Path.str src) (exn_str exc))) st' in
      set_stats (failures_append (stats st') (Path.str src)) st'
  end.

(** ** File walking *)

(** [walk_images]: the regular files below [folder] with a supported
    suffix.  [rglob] promises no order; the order of the map is used. *)
Definition walk_images (files : gmap Path.t file) (folder : Path.t)
  : list Path.t :=
  filter (fun p : Path.t =>
            folder `prefix_of` p ∧ p ≠ folder
            ∧ PyStr.lower (Path.suffix p) ∈ SUPPORTED_EXTS)
         (fst <$> map_to_list files).

(** ** The background worker *)

(** What [_worker] reads of the [App] object. *)
Record App := mkApp {
  src_folder : Path.t;
  dest_folder : option Path.t;
  quality_var : Z;
  png_var : bool;
}.

(** The loop of [_worker] over [enumerate(files, idx)]. *)
Fixpoint worker_loop (w : World) (dest_dir : Path.t) (quality : Z)
    (convert_png : bool) (idx : Z) (files : list Path.t) (st : State) : State :=
  match files with
  | [] => st
  | fpath :: rest =>
      let st := optimize_image w fpath dest_dir quality convert_png st in
      let st := put (Progress idx) st in
      worker_loop w dest_dir quality convert_png (idx + 1) rest st
  end.

(** [App._worker] *)
Definition worker (w : World) (app : App) (files : list Path.t) (st : State)
  : State :=
  let dest_dir := default (src_folder app) (dest_folder app) in
  let quality := quality_var app in
  let convert_png := png_var app in
  let st := worker_loop w dest_dir quality convert_png 1 files st in
  put (Done (stats st)) st.

(** The state [_start] hands to the worker thread: a fresh [Stats], the
    queue as the GUI left it drained. *)
Definition start_state (files : gmap Path.t file) : State :=
  mkState files Stats_init [] [].

(** ** Observations used in the statements *)

(** A dot and an extension: non-empty, without a further dot. *)
Definition is_ext (sfx : string) : Prop :=
  ∃ e, sfx = "." +:+ e ∧ e ≠ "" ∧ PyStr.rfind_dot e = None.

(** The image the pipeline works on: the decoded source, stripped. *)
Definition source_image (files : gmap Path.t file) (src : Path.t) : option Image :=
  strip_exif <$> (files !! src ≫= decoded).

(** The destination after the collision test. *)
Definition final_dest (files : gmap Path.t file) (p : Path.t) : Path.t :=
  if bool_decide (is_Some (files !! p)) then dup_of p else p.

(** The test of line 145. *)
Definition oxipng_wanted (dest_path : Path.t) (convert_png_to_webp : bool) : bool :=
  bool_decide (PyStr.lower (Path.suffix dest_path) = ".png")
  && negb convert_png_to_webp.

(** The calls of one complete pass through the [try] block, for a source
    that decodes (and strips) to [im], in a file system [files]. *)
Definition expected_calls (files : gmap Path.t file) (src dest_dir : Path.t)
    (quality : Z) (convert_png_to_webp : bool) (im : Image) : list call :=
  let plan := save_plan (PyStr.lower (Path.suffix src)) quality convert_png_to_webp in
  let p := planned_dest src dest_dir im plan.1 in
  let dest := final_dest files p in
  [CallOpen src; CallGetdata src; CallExists p; CallMkdir (Path.parent dest);
   CallSave dest plan.2]
  ++ (if oxipng_wanted dest convert_png_to_webp then [CallOxipng dest] else [])
  ++ [CallStat src; CallStat dest].

(** A world in which no call raises. *)
Definition no_fault (w : World) : Prop := ∀ h c, fault w h c = None.

(** Between [st] and [st'] the calls [cs] were made, and neither the
    counters nor the queue changed. *)
Definition quiet (st st' : State) (cs : list call) : Prop :=
  history st' = history st ++ cs ∧ stats st' = stats st
  ∧ log_queue st' = log_queue st.

(** The file at the destination after a complete pass. *)
Definition written_file (w : World) (im : Image) (p : Path.t)
    (kw : gmap string kwarg) (compressed : bool) : file :=
  if compressed then oxipng_output w p (encode w im p kw) else encode w im p kw.

(** Why the [try] block can raise [e]: a collaborator raised it, or the
    source is missing, or it is not an image. *)
Definition injected (w : World) (e : exn) : Prop :=
  ∃ h c, fault w h c = Some e.

Definition raised_by (w : World) (files : gmap Path.t file) (src : Path.t)
    (e : exn) : Prop :=
  injected w e
  ∨ (files !! src = None ∧ e = FileNotFoundError)
  ∨ (∃ f, files !! src = Some f ∧ decoded f = None ∧ e = UnidentifiedImageError).

(** The log line of each handler. *)
Definition failure_line (src : Path.t) (e : exn) : log_line :=
  match e with
  | UnidentifiedImageError => LogSkipped (Path.str src)
  | _ => LogError (Path.str src) (exn_str e)
  end.

Definition is_success (l : log_line) : bool :=
  match l with
  | LogOptimized _ _ _ _ => true
  | _ => false
  end.

(** The file a log line speaks of. *)
Definition line_about (src : Path.t) (l : log_line) : Prop :=
  match l with
  | LogOptimized n _ _ _ => n = Path.name src
  | LogSkipped s => s = Path.str src
  | LogError s _ => s = Path.str src
  end.

(** The events of a run whose files produced [lines]: for each file its
    log line and its progress tick. *)
Fixpoint run_events (idx : Z) (lines : list log_line) : list event :=
  match lines with
  | [] => []
  | l :: rest => LogLine l :: Progress idx :: run_events (idx + 1) rest
  end.

(** The files of a run that did not succeed, in the order of the run. *)
Fixpoint failed_of (files : list Path.t) (lines : list log_line) : list Path.t :=
  match files, lines with
  | f :: files', l :: lines' =>
      (if is_success l then [] else [f]) ++ failed_of files' lines'
  | _, _ => []
  end.

Definition successes (lines : list log_line) : Z :=
  Z.of_nat (length (List.filter is_success lines)).

(** The two sizes a log line is rendered from; none for a file that
    failed. *)
Definition logged_sizes (l : log_line) : Z * Z :=
  match l with
  | LogOptimized _ _ original_size new_size => (original_size, new_size)
  | _ => (0, 0)
  end.

Definition logged_original (lines : list log_line) : Z :=
  foldr (fun l acc => (logged_sizes l).1 + acc) 0 lines.

Definition logged_optimized (lines : list log_line) : Z :=
  foldr (fun l acc => (logged_sizes l).2 + acc) 0 lines.


(** The states a run goes through: it starts from fresh counters, and
    each file and each progress tick leads to the next state. *)
Inductive reachable (w : World) (dest_dir : Path.t) (quality : Z)
    (convert_png : bool) : State → Prop :=
| reach_start st :
    stats st = Stats_init → reachable w dest_dir quality convert_png st
| reach_file st src :
    reachable w dest_dir quality convert_png st →
    reachable w dest_dir quality convert_png
      (optimize_image w src dest_dir quality convert_png st)
| reach_progress st idx :
    reachable w dest_dir quality convert_png st →
    reachable w dest_dir quality convert_png (put (Progress idx) st).

Definition is_hex_digit (c : ascii) : bool :=
  existsb (Ascii.eqb c) (String.list_ascii_of_string "0123456789abcdef").

Fixpoint all_chars (P : ascii → bool) (s : string) : bool :=
  match s with
  | EmptyString => true
  | String c s' => P c && all_chars P s'
  end.

(** The reason the specification gives for a file that is skipped; the
    message of the exception for the others. *)
Definition spec_reason (e : exn) : string :=
  match e with
  | UnidentifiedImageError => "unreadable image"
  | _ => exn_str e
  end.

(** C3 as the specification states it: the entry appended to [failures]
    for a failed file holds the path and the reason. *)
Definition failures_carry_reason : Prop :=
  ∀ w src dest_dir quality convert st e,
    (optimize_body w src dest_dir quality convert st).1 = Raise e →
    ∃ entry,
      last (failures (stats (optimize_image w src dest_dir quality convert st)))
      = Some entry
      ∧ PyStr.contains (Path.str src) entry = true
      ∧ PyStr.contains (spec_reason e) entry = true.

(** C5 as the specification states it, in the most favourable case:
    two runs over the very same source file, into the same folder, write
    to destinations with the same stem. *)
Definition two_runs_same_stem : Prop :=
  ∀ w src dest_dir quality convert st cs1 cs2 p1 p2 kw1 kw2,
    let st1 := optimize_image w src dest_dir quality convert st in
    let st2 := optimize_image w src dest_dir quality convert st1 in
    history st1 = history st ++ cs1 → CallSave p1 kw1 ∈ cs1 →
    history st2 = history st1 ++ cs2 → CallSave p2 kw2 ∈ cs2 →
    Path.stem p1 = Path.stem p2.

(** The calls of a pass up to and including the save. *)
Definition calls_until_save (files : gmap Path.t file) (src dest_dir : Path.t)
    (quality : Z) (convert_png_to_webp : bool) (im : Image) : list call :=
  let plan := save_plan (PyStr.lower (Path.suffix src)) quality convert_png_to_webp in
  let p := planned_dest src dest_dir im plan.1 in
  let dest := final_dest files p in
  [CallOpen src; CallGetdata src; CallExists p; CallMkdir (Path.parent dest);
   CallSave dest plan.2].

(** ** The window

    What the methods of [App] read and write besides the queue: the two
    chosen folders, the two settings, the progress bar, the log box and
    the summary.  The two folder labels are written by [_choose_src] and
    [_choose_dest] and read by nothing; they are left out. *)

(** The text of the summary label: empty, or [stats.as_summary()] of the
    [Stats] object that came with ['DONE'].  The rendering of the three
    numbers ([:.2f], [:.1f]) is not modelled: the label is held as the
    counters it is rendered from. *)
Inductive summary_text :=
| NoSummary
| SummaryOf (stats : Stats).

Record Widgets := mkWidgets {
  progress_maximum : Z;        (* self.progress['maximum'] *)
  progress_value : Z;          (* self.progress['value'] *)
  log_txt : list log_line;     (* the lines of self.log_txt, each ended by '\n' *)
  summary_var : summary_text;  (* self.summary_var *)
}.

Record Window := mkWindow {
  win_src_folder : option Path.t;    (* self.src_folder *)
  win_dest_folder : option Path.t;   (* self.dest_folder *)
  win_quality : Z;                   (* self.quality_var *)
  win_png : bool;                    (* self.png_var *)
  widgets : Widgets;
}.

(** The widgets as [_build_ui] leaves them. *)
Definition fresh_widgets : Widgets := mkWidgets 100 0 [] NoSummary.

(** [App.__init__] and [_build_ui]: no folder chosen, quality 85, no
    conversion. *)
Definition fresh_window : Window := mkWindow None None 85 false fresh_widgets.

(** [App._choose_src]; [answer] is what [askdirectory] returned, [None]
    for the empty string of a cancelled dialog. *)
Definition choose_src (answer : option Path.t) (win : Window) : Window :=
  match answer with
  | Some folder =>
      mkWindow (Some folder) (win_dest_folder win) (win_quality win)
               (win_png win) (widgets win)
  | None => win
  end.

(** [App._choose_dest]: a cancelled dialog sets the folder back to
    [None]. *)
Definition choose_dest (answer : option Path.t) (win : Window) : Window :=
  match answer with
  | Some folder =>
      mkWindow (win_src_folder win) (Some folder) (win_quality win)
               (win_png win) (widgets win)
  | None =>
      mkWindow (win_src_folder win) None (win_quality win)
               (win_png win) (widgets win)
  end.

(** [App._clear_log] and [App._append_log] *)
Definition clear_log (g : Widgets) : Widgets :=
  mkWidgets (progress_maximum g) (progress_value g) [] (summary_var g).

Definition append_log (l : log_line) (g : Widgets) : Widgets :=
  mkWidgets (progress_maximum g) (progress_value g) (log_txt g ++ [l])
            (summary_var g).

(** What [_start] does. *)
Inductive started :=
| NoSourceFolder
    (* messagebox.showerror('No source folder', 'Please select a source folder first') *)
| NoImagesFound
    (* messagebox.showinfo('No images found', 'No supported images were found') *)
| WorkerStarted (app : App) (files : list Path.t) (stats : Stats) (g : Widgets).
    (* threading.Thread(target=self._worker, args=(files, stats)).start() *)

(** [App._start] on the files [disk]. *)
Definition start (disk : gmap Path.t file) (win : Window) : started :=
  match win_src_folder win with
  | None => NoSourceFolder
  | Some folder =>
      let files := walk_images disk folder in
      match files with
      | [] => NoImagesFound
      | _ :: _ =>
          let g := widgets win in
          let g := mkWidgets (Z.of_nat (length files)) (progress_value g)
                             (log_txt g) (summary_var g) in
          let g := mkWidgets (progress_maximum g) 0 (log_txt g) (summary_var g) in
          let g := clear_log g in
          let g := mkWidgets (progress_maximum g) (progress_value g) (log_txt g)
                             NoSummary in
          WorkerStarted (mkApp folder (win_dest_folder win) (win_quality win)
                               (win_png win))
                        files Stats_init g
      end
  end.

(** One item of the queue, as [_drain_log_queue] handles it. *)
Definition drain_item (g : Widgets) (item : event) : Widgets :=
  match item with
  | Progress payload =>
      mkWidgets (progress_maximum g) payload (log_txt g) (summary_var g)
  | Done stats =>
      mkWidgets (progress_maximum g) (progress_value g) (log_txt g)
                (SummaryOf stats)
  | LogLine l => append_log l g
  end.

(** [App._drain_log_queue]: one poll takes every item that is queued, in
    the order of the queue. *)
Definition drain_log_queue (queue : list event) (g : Widgets) : Widgets :=
  List.fold_left drain_item queue g.

(** A run from the button to the last poll: [_start], the worker thread,
    and the polls that take its events. *)
Definition run (w : World) (disk : gmap Path.t file) (win : Window)
  : option (State * Widgets) :=
  match start disk win with
  | WorkerStarted app files stats g =>
      let st := worker w app files (mkState disk stats [] []) in
      Some (st, drain_log_queue (log_queue st) g)
  | _ => None
  end.

(** ** Concrete worlds and file trees *)

Module Example.

Definition pixels : list Byte.byte := bytes_of_nats [10; 20; 30; 40; 50; 60]%nat.

(** A 2x1 RGB image that carries an EXIF block. *)
Definition photo : Image := mkImage "RGB" 2 1 pixels [("exif", "Canon")].

Definition encoder (im : Image) (p : Path.t) (kw : gmap string kwarg) : file :=
  mkFile 30000 (Some im).

Definition oxipng_tool (p : Path.t) (f : file) : file :=
  mkFile (st_size f - 100) (decoded f).

(** Nothing raises. *)
Definition calm : World := mkWorld (fun _ _ => None) encoder oxipng_tool.

(** [oxipng] is on the path but may not be executed: [subprocess.run]
    raises [PermissionError]. *)
Definition oxipng_denied : World :=
  mkWorld (fun _ c => match c with
                      | CallOxipng _ => Some (OtherError "[Errno 13] Permission denied: 'oxipng'")
                      | _ => None
                      end)
          encoder oxipng_tool.

(** [oxipng] is not installed. *)
Definition oxipng_absent : World :=
  mkWorld (fun _ c => match c with
                      | CallOxipng _ => Some FileNotFoundError
                      | _ => None
                      end)
          encoder oxipng_tool.

(** The source files may not be read. *)
Definition read_denied : World :=
  mkWorld (fun _ c => match c with
                      | CallOpen _ => Some (OtherError "[Errno 13] Permission denied")
                      | _ => None
                      end)
          encoder oxipng_tool.

Definition photos : Path.t := ["photos"].
Definition nested : Path.t := ["photos"; "sub"; "a.jpg"].
Definition broken : Path.t := ["photos"; "broken.png"].
Definition icon : Path.t := ["photos"; "icon.png"].

(** A source folder with a picture in a subfolder and a file of four
    garbage bytes. *)
Definition tree : gmap Path.t file :=
  <[nested := mkFile 50000 (Some photo)]> (<[broken := mkFile 4 None]> ∅).

Definition png_tree : gmap Path.t file :=
  <[icon := mkFile 900 (Some photo)]> ∅.

(** A destination folder in which both the computed name and its
    ["-dup"] variant are taken. *)
Definition out : Path.t := ["out"].
Definition taken : Path.t := ["out"; "a-2x1-e8975c42.jpg"].
Definition taken_dup : Path.t := ["out"; "a-2x1-e8975c42-dup.jpg"].

Definition crowded : gmap Path.t file :=
  <[taken := mkFile 11 None]> (<[taken_dup := mkFile 22 None]> tree).

Definition once : gmap Path.t file := <[taken := mkFile 11 None]> tree.

Definition in_place : App := mkApp photos None 80 false.

(** The destination computed for [nested] in [out], before the collision
    test. *)
Definition planned : Path.t :=
  planned_dest nested out (strip_exif photo)
    (save_plan (PyStr.lower (Path.suffix nested)) 80 false).1.

(** The picture of the subfolder optimized into [out], and then once
    more. *)
Definition first_run : State :=
  optimize_image calm nested out 80 false (start_state tree).

Definition second_run : State :=
  optimize_image calm nested out 80 false first_run.

(** The window after [photos] has been chosen as the source; the run it
    starts, and what the window shows when the queue of that run has
    been taken. *)
Definition window : Window := choose_src (Some photos) fresh_window.

Definition chosen : App := mkApp photos None 85 false.

Definition scanned : list Path.t := walk_images tree photos.

Definition after : State := worker calm chosen scanned (start_state tree).

Definition cleared : Widgets :=
  mkWidgets (Z.of_nat (length scanned)) 0 [] NoSummary.

Definition shown : Widgets := drain_log_queue (log_queue after) cleared.

Definition written : Path.t := ["photos"; "a-2x1-e8975c42.jpg"].

(** The window after [photos] and then the destination [out] have been
    chosen. *)
Definition window_out : Window := choose_dest (Some out) window.

End Example.

(** * Facts about strings and paths *)

Module PyStrFacts.
Import PyStr.

Lemma app_cons (x : ascii) (a b : string) :
  String x a +:+ b = String x (a +:+ b).
Proof. reflexivity. Qed.

Lemma app_nil_l (b : string) : "" +:+ b = b.
Proof. reflexivity. Qed.

Lemma app_assoc (a b c : string) : (a +:+ b) +:+ c = a +:+ b +:+ c.
Proof.
  induction a as [|x a IH]; [done|]. by rewrite !app_cons, IH.
Qed.

Lemma app_nil_r (a : string) : a +:+ "" = a.
Proof. induction a as [|x a IH]; [done|]. by rewrite app_cons, IH. Qed.

Lemma length_app (a b : string) :
  String.length (a +:+ b) = (String.length a + String.length b)%nat.
Proof.
  induction a as [|x a IH]; [done|]. rewrite app_cons. simpl. by rewrite IH.
Qed.

Lemma app_eq_nil (a b : string) : a +:+ b = "" → a = "" ∧ b = "".
Proof. destruct a; [done|]. rewrite app_cons. discriminate. Qed.

Lemma drop_app_length (a b : string) : drop (String.length a) (a +:+ b) = b.
Proof.
  induction a as [|x a IH]; [by destruct b|]. by rewrite app_cons.
Qed.

Lemma take_app_length (a b : string) : take (String.length a) (a +:+ b) = a.
Proof.
  induction a as [|x a IH]; [by destruct b|].
  rewrite app_cons. simpl. by rewrite IH.
Qed.

Lemma take_drop (i : nat) (s : string) : take i s +:+ drop i s = s.
Proof.
  revert s; induction i as [|i IH]; intros [|c s]; simpl; try done.
  by rewrite app_cons, IH.
Qed.

(** The last dot of [a.e] is the one written, when [e] has none. *)
Lemma rfind_dot_app (a e : string) :
  rfind_dot e = None →
  rfind_dot (a +:+ "." +:+ e) = Some (String.length a).
Proof.
  intros He. induction a as [|x a IH].
  - rewrite app_nil_l, app_cons, app_nil_l. simpl. by rewrite He.
  - rewrite app_cons. simpl. by rewrite IH.
Qed.

(** Where [rfind] finds a dot there is one, and none after it. *)
Lemma rfind_dot_Some (s : string) (i : nat) :
  rfind_dot s = Some i →
  ∃ e, drop i s = String "."%char e ∧ rfind_dot e = None
       ∧ String.length (take i s) = i.
Proof.
  revert i; induction s as [|c s IH]; simpl; intros i Hi; [done|].
  destruct (rfind_dot s) as [j|] eqn:Hs.
  - injection Hi as <-. destruct (IH j eq_refl) as (e & ? & ? & ?).
    exists e. simpl. auto.
  - destruct (is_dot c) eqn:Hc; [|done]. injection Hi as <-.
    exists s. simpl. repeat split; [|done].
    unfold is_dot in Hc. apply Ascii.eqb_eq in Hc. by subst.
Qed.

Lemma is_dot_lower (c : ascii) : is_dot (lower_ascii c) = is_dot c.
Proof. by destruct c as [[] [] [] [] [] [] [] []]. Qed.

Lemma rfind_dot_lower (s : string) : rfind_dot (lower s) = rfind_dot s.
Proof.
  induction s as [|c s IH]; simpl; [done|]. by rewrite IH, is_dot_lower.
Qed.

Lemma lower_app (a b : string) : lower (a +:+ b) = lower a +:+ lower b.
Proof.
  induction a as [|x a IH]; [done|]. rewrite app_cons. simpl.
  by rewrite IH.
Qed.

Lemma lower_eq_nil (s : string) : lower s = "" → s = "".
Proof. by destruct s. Qed.

Lemma lstrip_dot_no_dot (e : string) : rfind_dot e = None → lstrip_dot e = e.
Proof.
  destruct e as [|c e]; simpl; [done|].
  destruct (rfind_dot e); [done|]. by destruct (is_dot c).
Qed.

End PyStrFacts.

Module PathFacts.
Import PyStr PyStrFacts Path.

Lemma name_div (d : t) (n : string) : name (div d n) = n.
Proof. unfold name, div. apply List.last_last. Qed.

Lemma parent_div (d : t) (n : string) : parent (div d n) = d.
Proof. unfold parent, div. apply List.removelast_last. Qed.

Lemma name_with_name (p : t) (n : string) : name (with_name p n) = n.
Proof. apply name_div. Qed.

Lemma parent_with_name (p : t) (n : string) : parent (with_name p n) = parent p.
Proof. apply parent_div. Qed.

(** A name [a.e] with [a] and [e] non-empty and [e] free of dots splits
    into the stem [a] and the suffix [.e]. *)
Lemma split_at_app (a e : string) :
  a ≠ "" → e ≠ "" → rfind_dot e = None →
  split_at (a +:+ "." +:+ e) = Some (String.length a).
Proof.
  intros Ha He Hdot. unfold split_at. rewrite rfind_dot_app by done.
  assert (0 < String.length a)%nat by (destruct a; simpl; [done|lia]).
  assert (0 < String.length e)%nat by (destruct e; simpl; [done|lia]).
  assert (((0 <? String.length a)
           && (String.length a <? String.length (a +:+ "." +:+ e) - 1))%nat
          = true) as ->; [|done].
  rewrite !length_app. simpl String.length.
  apply andb_true_iff; split; apply Nat.ltb_lt; lia.
Qed.

Lemma name_stem_app (a e : string) :
  a ≠ "" → e ≠ "" → rfind_dot e = None →
  name_stem (a +:+ "." +:+ e) = a.
Proof.
  intros. unfold name_stem. rewrite split_at_app by done.
  apply take_app_length.
Qed.

Lemma name_suffix_app (a e : string) :
  a ≠ "" → e ≠ "" → rfind_dot e = None →
  name_suffix (a +:+ "." +:+ e) = "." +:+ e.
Proof.
  intros. unfold name_suffix. rewrite split_at_app by done.
  apply drop_app_length.
Qed.

(** Every non-empty suffix is a dot followed by a non-empty extension
    without dots, and the name is its stem followed by its suffix. *)
Lemma name_suffix_inv (nm : string) :
  name_suffix nm ≠ "" →
  ∃ e, name_suffix nm = "." +:+ e ∧ e ≠ "" ∧ rfind_dot e = None
       ∧ name_stem nm ≠ "" ∧ nm = name_stem nm +:+ "." +:+ e.
Proof.
  unfold name_suffix, name_stem, split_at.
  destruct (rfind_dot nm) as [i|] eqn:Hi; [|done].
  destruct ((0 <? i) && (i <? String.length nm - 1))%nat eqn:Hc; [|done].
  intros _. apply andb_true_iff in Hc as [H0 Hlen].
  apply Nat.ltb_lt in H0, Hlen.
  destruct (rfind_dot_Some _ _ Hi) as (e & Hdrop & Hdot & Htake).
  pose proof (take_drop i nm) as Hnm. rewrite Hdrop in Hnm.
  exists e. repeat split; [done| |done| |done].
  - intros ->. rewrite <- Hnm, length_app, Htake in Hlen. simpl in Hlen. lia.
  - intros Hemp. rewrite Hemp in Htake. simpl in Htake. lia.
Qed.

Lemma name_stem_suffix (nm : string) : name_stem nm +:+ name_suffix nm = nm.
Proof.
  unfold name_stem, name_suffix. destruct (split_at nm).
  - apply take_drop.
  - apply app_nil_r.
Qed.

End PathFacts.

(** * The hash against [hashlib]

    Digests printed by [hashlib.blake2b(data, digest_size=4).hexdigest()]. *)

Example blake2b_empty : Blake2b.hexdigest 4 [] = "1271cf25".
Proof. vm_compute. reflexivity. Qed.

Example blake2b_abc :
  Blake2b.hexdigest 4 (bytes_of_nats [97; 98; 99]%nat) = "63906248".
Proof. vm_compute. reflexivity. Qed.

Example blake2b_200 :
  Blake2b.hexdigest 4 (bytes_of_nats (List.map (fun i => i mod 256)%nat (List.seq 0 200)))
  = "913cd807".
Proof. vm_compute. reflexivity. Qed.

Example blake2b_block_boundaries :
  List.map (fun n => Blake2b.hexdigest 4
              (bytes_of_nats (List.map (fun i => (i * 7 + 3) mod 256)%nat (List.seq 0 n))))
           [127; 128; 129; 256; 257; 300]%nat
  = ["68c18574"; "ac990d8e"; "a9eaab1d"; "cdb2f8a6"; "2e6a5df6"; "36363b56"].
Proof. vm_compute. reflexivity. Qed.

(** * Facts about the naming *)

Module NamingFacts.
Import PyStr PyStrFacts Path PathFacts.

Lemma is_ext_suffix (nm : string) : name_suffix nm ≠ "" → is_ext (name_suffix nm).
Proof.
  intros H. destruct (name_suffix_inv nm H) as (e & ? & ? & ? & _).
  by exists e.
Qed.

Lemma is_ext_lower (sfx : string) : is_ext sfx → is_ext (lower sfx).
Proof.
  intros (e & -> & He & Hdot). exists (lower e). split; [|split].
  - by rewrite lower_app.
  - intros Hl. by apply lower_eq_nil in Hl.
  - by rewrite rfind_dot_lower.
Qed.

Lemma is_ext_webp : is_ext ".webp".
Proof. by exists "webp". Qed.

Lemma name_stem_ext (a sfx : string) :
  a ≠ "" → is_ext sfx → name_stem (a +:+ sfx) = a.
Proof. intros Ha (e & -> & ? & ?). by apply name_stem_app. Qed.

Lemma name_suffix_ext (a sfx : string) :
  a ≠ "" → is_ext sfx → name_suffix (a +:+ sfx) = sfx.
Proof. intros Ha (e & -> & ? & ?). by apply name_suffix_app. Qed.

Lemma spec_stem_ne (src : t) (img : Image) : spec_stem src img ≠ "".
Proof.
  unfold spec_stem. intros H. apply app_eq_nil in H as [_ H]. done.
Qed.

(** [slug_for] is the specified stem followed by the lower-cased suffix
    of the source. *)
Lemma slug_for_split (src : t) (img : Image) :
  suffix src ≠ "" →
  slug_for src img = spec_stem src img +:+ lower (suffix src).
Proof.
  intros H. destruct (name_suffix_inv _ H) as (e & He & Hne & Hdot & _).
  unfold slug_for, spec_stem, suffix. rewrite He, lower_app.
  change (lower ".") with ".". rewrite (app_cons "." "" (lower e)), app_nil_l.
  simpl lstrip_dot. rewrite lstrip_dot_no_dot by by rewrite rfind_dot_lower.
  by rewrite !app_assoc.
Qed.

Lemma save_plan_ext (e : string) (q : Z) (c : bool) :
  (save_plan e q c).1 = e ∨ (save_plan e q c).1 = ".webp" ∧ e = ".png" ∧ c = true.
Proof.
  unfold save_plan. repeat case_bool_decide; try (by left).
  destruct c; [by right|by left].
Qed.

Lemma save_plan_is_ext (e : string) (q : Z) (c : bool) :
  is_ext e → is_ext (save_plan e q c).1.
Proof.
  intros He. destruct (save_plan_ext e q c) as [->|[-> _]]; [done|].
  apply is_ext_webp.
Qed.

(** The planned destination lies in [dest_dir] and is named by the
    specified stem and the output extension. *)
Lemma planned_dest_name (src dest_dir : t) (img : Image) (q : Z) (c : bool) :
  suffix src ≠ "" →
  let out_ext := (save_plan (lower (suffix src)) q c).1 in
  name (planned_dest src dest_dir img out_ext) = spec_stem src img +:+ out_ext.
Proof.
  intros H out_ext. unfold planned_dest.
  pose proof (is_ext_lower _ (is_ext_suffix _ H)) as Hext.
  case_bool_decide as Hne.
  - unfold with_suffix. rewrite name_with_name, name_div.
    rewrite slug_for_split by done.
    by rewrite name_stem_ext by auto using spec_stem_ne.
  - rewrite name_div, slug_for_split by done. by rewrite Hne.
Qed.

Lemma planned_dest_parent (src dest_dir : t) (img : Image) (out_ext : string) :
  parent (planned_dest src dest_dir img out_ext) = dest_dir.
Proof.
  unfold planned_dest. case_bool_decide.
  - unfold with_suffix. by rewrite parent_with_name, parent_div.
  - apply parent_div.
Qed.

Lemma dup_of_parent (p : t) : parent (dup_of p) = parent p.
Proof. unfold dup_of, with_stem. apply parent_with_name. Qed.

Lemma dup_of_name (p : t) :
  name (dup_of p) = (stem p +:+ "-dup") +:+ suffix p.
Proof. unfold dup_of, with_stem. apply name_with_name. Qed.

End NamingFacts.

(** * The collaborators, call by call *)

Section Steps.
Context (w : World).

Lemma quiet_refl st : quiet st st [].
Proof. unfold quiet. by rewrite app_nil_r. Qed.

Lemma quiet_trans st1 st2 st3 cs1 cs2 :
  quiet st1 st2 cs1 → quiet st2 st3 cs2 → quiet st1 st3 (cs1 ++ cs2).
Proof.
  intros (H1 & H2 & H3) (H4 & H5 & H6). unfold quiet.
  rewrite H4, H1, H5, H2, H6, H3. by rewrite app_assoc.
Qed.

Lemma fault_injected h c e : fault w h c = Some e → injected w e.
Proof. intros H. by exists h, c. Qed.

Local Ltac faulted H :=
  repeat (split; [done|]); try left; exact (fault_injected _ _ _ H).

Lemma image_open_spec src st :
  match image_open w src st with
  | (Ok im, st') =>
      quiet st st' [CallOpen src] ∧ fs st' = fs st
      ∧ fs st !! src ≫= decoded = Some im
  | (Raise e, st') =>
      quiet st st' [CallOpen src] ∧ fs st' = fs st ∧ raised_by w (fs st) src e
  end.
Proof.
  unfold image_open, prim, raised_by.
  destruct (fault w _ _) eqn:Hf; [faulted Hf|]. simpl.
  destruct (fs st !! src) as [f|] eqn:Hsrc;
    [|by split; [|split; [|right; left]]]. simpl.
  destruct (decoded f) eqn:Hdec; [done|].
  split; [done|]. split; [done|]. right. right. by exists f.
Qed.

Lemma strip_exif_of_spec src im st :
  match strip_exif_of w src im st with
  | (Ok im', st') =>
      quiet st st' [CallGetdata src] ∧ fs st' = fs st ∧ im' = strip_exif im
  | (Raise e, st') =>
      quiet st st' [CallGetdata src] ∧ fs st' = fs st ∧ injected w e
  end.
Proof.
  unfold strip_exif_of, prim.
  destruct (fault w _ _) eqn:Hf; [faulted Hf|done].
Qed.

Lemma path_exists_spec p st :
  match path_exists w p st with
  | (Ok b, st') =>
      quiet st st' [CallExists p] ∧ fs st' = fs st
      ∧ b = bool_decide (is_Some (fs st !! p))
  | (Raise e, st') =>
      quiet st st' [CallExists p] ∧ fs st' = fs st ∧ injected w e
  end.
Proof.
  unfold path_exists, prim.
  destruct (fault w _ _) eqn:Hf; [faulted Hf|done].
Qed.

Lemma mkdir_spec p st :
  match mkdir w p st with
  | (Ok _, st') => quiet st st' [CallMkdir p] ∧ fs st' = fs st
  | (Raise e, st') =>
      quiet st st' [CallMkdir p] ∧ fs st' = fs st ∧ injected w e
  end.
Proof.
  unfold mkdir, prim.
  destruct (fault w _ _) eqn:Hf; [faulted Hf|done].
Qed.

Lemma image_save_spec im p kw st :
  match image_save w im p kw st with
  | (Ok _, st') =>
      quiet st st' [CallSave p kw] ∧ fs st' = <[p := encode w im p kw]> (fs st)
  | (Raise e, st') =>
      quiet st st' [CallSave p kw] ∧ fs st' = fs st ∧ injected w e
  end.
Proof.
  unfold image_save, prim.
  destruct (fault w _ _) eqn:Hf; [faulted Hf|done].
Qed.

(** [call_oxipng] lets through exactly what is neither
    [FileNotFoundError] nor [CalledProcessError]. *)
Lemma call_oxipng_spec p st :
  match call_oxipng w p st with
  | (Ok _, st') =>
      quiet st st' [CallOxipng p]
      ∧ (fs st' = fs st
         ∨ ∃ f, fs st !! p = Some f ∧ fs st' = <[p := oxipng_output w p f]> (fs st))
  | (Raise e, st') =>
      quiet st st' [CallOxipng p] ∧ fs st' = fs st
      ∧ fault w (history st) (CallOxipng p) = Some e
      ∧ e ≠ FileNotFoundError ∧ e ≠ CalledProcessError
  end.
Proof.
  unfold call_oxipng, run_oxipng, prim.
  destruct (fault w _ _) as [[]|] eqn:Hf; simpl;
    try (by repeat split); try (by split; [|left]).
  destruct (fs st !! p) as [f|] eqn:Hp; simpl; [|by split; [|left]].
  split; [done|]. right. by exists f.
Qed.

Lemma stat_size_spec p st :
  match stat_size w p st with
  | (Ok n, st') =>
      quiet st st' [CallStat p] ∧ fs st' = fs st
      ∧ ∃ f, fs st !! p = Some f ∧ n = Z.of_N (st_size f)
  | (Raise e, st') =>
      quiet st st' [CallStat p] ∧ fs st' = fs st
      ∧ (injected w e ∨ fs st !! p = None)
  end.
Proof.
  unfold stat_size, prim.
  destruct (fault w _ _) eqn:Hf; [faulted Hf|]. simpl.
  destruct (fs st !! p) as [f|] eqn:Hp; [|by split; [|split; [|right]]].
  split; [done|]. split; [done|]. by exists f.
Qed.

End Steps.

(** * One pass through the [try] block *)

Section Body.
Context (w : World) (src d : Path.t) (q : Z) (c : bool).

(** Lines 145-146: the optional pass of oxipng over the file just
    written. *)
Lemma compress_step_spec dest f st :
  fs st !! dest = Some f →
  match (if oxipng_wanted dest c then call_oxipng w dest else mret tt) st with
  | (Ok _, st') =>
      ∃ compressed : bool,
        quiet st st' (if oxipng_wanted dest c then [CallOxipng dest] else [])
        ∧ (compressed = true → oxipng_wanted dest c = true)
        ∧ fs st' = <[dest := if compressed then oxipng_output w dest f else f]> (fs st)
  | (Raise e, st') =>
      oxipng_wanted dest c = true
      ∧ quiet st st' [CallOxipng dest] ∧ fs st' = fs st
      ∧ fault w (history st) (CallOxipng dest) = Some e
      ∧ e ≠ FileNotFoundError ∧ e ≠ CalledProcessError
  end.
Proof.
  intros Hf. destruct (oxipng_wanted dest c) eqn:Hwant.
  - pose proof (call_oxipng_spec w dest st) as H.
    destruct (call_oxipng w dest st) as [[[]|e] st']; [|by split].
    destruct H as (Q & [Hfs|(f' & Hf' & Hfs)]).
    + exists false. rewrite Hfs. by rewrite insert_id.
    + exists true. rewrite Hfs. by simplify_eq.
  - exists false. split; [apply quiet_refl|]. by rewrite insert_id.
Qed.

(** Lines 148-151: the two sizes, the counters and the log line. *)
Lemma measure_spec dest f st :
  is_Some (fs st !! src) →
  fs st !! dest = Some f →
  match (original_size ← stat_size w src;
         new_size ← stat_size w dest;
         stats_add original_size new_size;;
         log_put (LogOptimized (Path.name src) (Path.name dest)
                    original_size new_size)) st with
  | (Ok _, st') =>
      ∃ fsrc, fs st !! src = Some fsrc
        ∧ history st' = history st ++ [CallStat src; CallStat dest]
        ∧ fs st' = fs st
        ∧ stats st' = add (stats st) (Z.of_N (st_size fsrc)) (Z.of_N (st_size f))
        ∧ log_queue st' = log_queue st ++
            [LogLine (LogOptimized (Path.name src) (Path.name dest)
                        (Z.of_N (st_size fsrc)) (Z.of_N (st_size f)))]
  | (Raise e, st') =>
      ∃ cs, quiet st st' cs ∧ cs `prefix_of` [CallStat src; CallStat dest]
            ∧ injected w e
  end.
Proof.
  intros [f0 Hf0] Hf. unfold mbind, M_bind, bind.
  pose proof (stat_size_spec w src st) as H1.
  destruct (stat_size w src st) as [[o|e] st1].
  2:{ destruct H1 as (Q1 & _ & [Hi|Hn]); [|congruence].
      exists [CallStat src]. split; [done|]. split; [|done].
      by exists [CallStat dest]. }
  destruct H1 as (Q1 & F1 & fsrc & Hsrc & ->).
  pose proof (stat_size_spec w dest st1) as H2.
  destruct (stat_size w dest st1) as [[n|e] st2].
  2:{ destruct H2 as (Q2 & _ & [Hi|Hn]); [|congruence].
      exists ([CallStat src] ++ [CallStat dest]).
      split; [by eapply quiet_trans|]. split; [|done]. by exists []. }
  destruct H2 as (Q2 & F2 & f' & Hdest & ->).
  rewrite F1, Hf in Hdest. injection Hdest as <-.
  destruct (quiet_trans _ _ _ _ _ Q1 Q2) as (Hh & Hs & Hl).
  exists fsrc. unfold stats_add, log_put. simpl.
  rewrite Hs, Hl, F2, F1. done.
Qed.

(** What one pass does.  When it completes, the calls are the expected
    ones, the destination holds the new file, the counters have been
    advanced by the two measured sizes and one line has been queued.
    When it raises, counters and queue are as before. *)
Lemma optimize_body_spec st :
  let plan := save_plan (PyStr.lower (Path.suffix src)) q c in
  match optimize_body w src d q c st with
  | (Ok _, st') =>
      ∃ im compressed,
        let dest := final_dest (fs st) (planned_dest src d im plan.1) in
        let f := written_file w im dest plan.2 compressed in
        source_image (fs st) src = Some im
        ∧ history st' = history st ++ expected_calls (fs st) src d q c im
        ∧ (compressed = true → oxipng_wanted dest c = true)
        ∧ fs st' = <[dest := f]> (fs st)
        ∧ ∃ fsrc, fs st' !! src = Some fsrc
        ∧ stats st' = add (stats st) (Z.of_N (st_size fsrc)) (Z.of_N (st_size f))
        ∧ log_queue st' = log_queue st ++
            [LogLine (LogOptimized (Path.name src) (Path.name dest)
                        (Z.of_N (st_size fsrc)) (Z.of_N (st_size f)))]
  | (Raise e, st') =>
      ∃ cs, quiet st st' cs
        ∧ raised_by w (fs st) src e
        ∧ (cs = [CallOpen src]
           ∨ ∃ im, source_image (fs st) src = Some im
                   ∧ cs `prefix_of` expected_calls (fs st) src d q c im)
  end.
Proof.
  intros plan. unfold optimize_body, mbind, M_bind, bind.
  pose proof (image_open_spec w src st) as H1.
  destruct (image_open w src st) as [[im0|e] st1];
    [|exists [CallOpen src]; split; [apply H1|split; [apply H1|by left]]].
  destruct H1 as (Q1 & F1 & Him0).
  assert (source_image (fs st) src = Some (strip_exif im0)) as Him
    by (unfold source_image; by rewrite Him0).
  assert (is_Some (fs st !! src)) as Hsrc
    by (destruct (fs st !! src); [by eexists|done]).
  pose proof (strip_exif_of_spec w src im0 st1) as H2.
  destruct (strip_exif_of w src im0 st1) as [[im|e] st2].
  2:{ destruct H2 as (Q2 & _ & Hi).
      eexists. split; [by eapply quiet_trans|]. split; [by left|].
      right. eexists. split; [done|]. by eexists. }
  destruct H2 as (Q2 & F2 & ->).
  pose proof (quiet_trans _ _ _ _ _ Q1 Q2) as Q12. clear Q1 Q2.
  unfold expected_calls. fold plan.
  destruct plan as [out_ext kw] eqn:Hplan. simpl fst. simpl snd. clear Hplan plan.
  set (p := planned_dest src d (strip_exif im0) out_ext).
  pose proof (path_exists_spec w p st2) as H3.
  destruct (path_exists w p st2) as [[taken|e] st3].
  2:{ destruct H3 as (Q3 & _ & Hi).
      eexists. split; [by eapply quiet_trans|]. split; [by left|].
      right. eexists. split; [done|]. by eexists. }
  destruct H3 as (Q3 & F3 & ->). rewrite F2, F1.
  fold (final_dest (fs st) p). set (dest := final_dest (fs st) p).
  pose proof (quiet_trans _ _ _ _ _ Q12 Q3) as Q123. clear Q12 Q3.
  pose proof (mkdir_spec w (Path.parent dest) st3) as H4.
  destruct (mkdir w (Path.parent dest) st3) as [[[]|e] st4].
  2:{ destruct H4 as (Q4 & _ & Hi).
      eexists. split; [by eapply quiet_trans|]. split; [by left|].
      right. eexists. split; [done|]. by eexists. }
  destruct H4 as (Q4 & F4).
  pose proof (quiet_trans _ _ _ _ _ Q123 Q4) as Q1234. clear Q123 Q4.
  pose proof (image_save_spec w (strip_exif im0) dest kw st4) as H5.
  destruct (image_save w (strip_exif im0) dest kw st4) as [[[]|e] st5].
  2:{ destruct H5 as (Q5 & _ & Hi).
      eexists. split; [by eapply quiet_trans|]. split; [by left|].
      right. eexists. split; [done|]. by eexists. }
  destruct H5 as (Q5 & F5). rewrite F4, F3, F2, F1 in F5.
  pose proof (quiet_trans _ _ _ _ _ Q1234 Q5) as Q15. clear Q1234 Q5.
  fold (oxipng_wanted dest c).
  pose proof (compress_step_spec dest (encode w (strip_exif im0) dest kw) st5) as H6.
  rewrite F5, lookup_insert_eq in H6. specialize (H6 eq_refl).
  destruct ((if oxipng_wanted dest c then call_oxipng w dest else mret tt) st5)
    as [[[]|e] st6].
  2:{ destruct H6 as (Hwant & Q6 & _ & Hi & _).
      eexists. split; [by eapply quiet_trans|].
      split; [left; by eapply fault_injected|].
      right. exists (strip_exif im0). split; [done|].
      fold p. fold dest. rewrite Hwant. by eexists. }
  destruct H6 as (compressed & Q6 & Hcomp & F6).
  rewrite insert_insert_eq in F6.
  pose proof (quiet_trans _ _ _ _ _ Q15 Q6) as Q16. clear Q15 Q6.
  assert (is_Some (fs st6 !! src)) as Hsrc6.
  { rewrite F6. destruct (decide (dest = src)) as [->|Hne].
    - rewrite lookup_insert_eq. by eexists.
    - by rewrite lookup_insert_ne. }
  pose proof (measure_spec dest _ st6 Hsrc6
                ltac:(by rewrite F6, lookup_insert_eq)) as H7.
  unfold mbind, M_bind, bind in H7.
  match type of H7 with match ?x with _ => _ end =>
    destruct x as [[[]|e] st7] end.
  2:{ destruct H7 as (cs & Q7 & [k Hk] & Hi).
      eexists. split; [by eapply quiet_trans|]. split; [by left|].
      right. exists (strip_exif im0). split; [done|]. fold p. fold dest.
      exists k. rewrite Hk. by rewrite <- !app_assoc. }
  destruct H7 as (fsrc & Hfsrc & Hh & F7 & Hs & Hl).
  destruct Q16 as (Hh6 & Hs6 & Hl6).
  exists (strip_exif im0), compressed. simpl.
  split; [done|]. split; [rewrite Hh, Hh6; by rewrite <- !app_assoc|].
  split; [done|]. split; [by rewrite F7, F6|].
  exists fsrc. split; [by rewrite F7|]. by rewrite Hs, Hl, Hs6, Hl6.
Qed.

End Body.

(** * One file, and the loop over the files *)

Section Run.
Context (w : World) (d : Path.t) (q : Z) (c : bool).

Lemma optimize_image_ok src st u st1 :
  optimize_body w src d q c st = (Ok u, st1) →
  optimize_image w src d q c st = st1.
Proof. intros H. unfold optimize_image. by rewrite H. Qed.

Lemma optimize_image_raise src st e st1 :
  optimize_body w src d q c st = (Raise e, st1) →
  optimize_image w src d q c st
  = set_stats (failures_append (stats st1) (Path.str src))
              (put (LogLine (failure_line src e)) st1).
Proof. intros H. unfold optimize_image. rewrite H. by destruct e. Qed.

(** The handlers touch neither the file system nor the record of calls. *)
Lemma optimize_image_history src st :
  history (optimize_image w src d q c st)
  = history (optimize_body w src d q c st).2.
Proof.
  destruct (optimize_body w src d q c st) as [[u|e] st1] eqn:Hb.
  - by rewrite (optimize_image_ok _ _ _ _ Hb).
  - by rewrite (optimize_image_raise _ _ _ _ Hb).
Qed.

Lemma optimize_image_fs src st :
  fs (optimize_image w src d q c st) = fs (optimize_body w src d q c st).2.
Proof.
  destruct (optimize_body w src d q c st) as [[u|e] st1] eqn:Hb.
  - by rewrite (optimize_image_ok _ _ _ _ Hb).
  - by rewrite (optimize_image_raise _ _ _ _ Hb).
Qed.

(** Every file leaves exactly one log line, and is either counted or
    listed in [failures]. *)
Lemma optimize_image_spec src st :
  let st' := optimize_image w src d q c st in
  ∃ l, log_queue st' = log_queue st ++ [LogLine l]
       ∧ line_about src l
       ∧ if is_success l
         then ∃ o n, 0 ≤ o ∧ 0 ≤ n ∧ stats st' = add (stats st) o n
         else stats st' = failures_append (stats st) (Path.str src).
Proof.
  intros st'. subst st'.
  pose proof (optimize_body_spec w src d q c st) as H.
  destruct (optimize_body w src d q c st) as [[u|e] st1] eqn:Hb.
  - rewrite (optimize_image_ok _ _ _ _ Hb).
    destruct H as (im & cp & _ & _ & _ & _ & fsrc & _ & Hs & Hl).
    eexists. split; [exact Hl|]. split; [done|]. simpl.
    eexists _, _. split; [|split; [|exact Hs]]; lia.
  - rewrite (optimize_image_raise _ _ _ _ Hb).
    destruct H as (cs & (_ & Hs & Hl) & _). simpl. rewrite Hs, Hl.
    exists (failure_line src e). split; [done|]. by destruct e.
Qed.

Lemma worker_loop_spec files : ∀ idx st,
  let st' := worker_loop w d q c idx files st in
  ∃ lines,
    Forall2 line_about files lines
    ∧ log_queue st' = log_queue st ++ run_events idx lines
    ∧ failures (stats st')
      = failures (stats st) ++ (Path.str <$> failed_of files lines)
    ∧ optimized_files (stats st') = optimized_files (stats st) + successes lines
    ∧ total_files (stats st') = total_files (stats st) + successes lines.
Proof.
  induction files as [|f files IH]; intros idx st; simpl.
  - exists []. unfold successes. simpl. rewrite !app_nil_r.
    repeat split; [constructor|lia|lia].
  - destruct (optimize_image_spec f st) as (l & Hl & Habout & Hstats).
    set (st1 := optimize_image w f d q c st) in *.
    destruct (IH (idx + 1) (put (Progress idx) st1))
      as (lines & Hall & Hlog & Hfail & Hopt & Htot).
    exists (l :: lines). split; [by constructor|].
    split; [rewrite Hlog; simpl; rewrite Hl; by rewrite <- !app_assoc|].
    rewrite Hfail, Hopt, Htot. simpl. unfold successes. simpl.
    destruct (is_success l).
    + destruct Hstats as (o & n & _ & _ & ->). simpl.
      rewrite Nat2Z.inj_succ. repeat split; lia.
    + rewrite Hstats. simpl. rewrite <- !app_assoc. repeat split; lia.
Qed.


Lemma failed_of_sublist files : ∀ lines, failed_of files lines `sublist_of` files.
Proof.
  induction files as [|f files IH]; intros [|l lines]; simpl;
    try apply sublist_nil_l.
  destruct (is_success l); simpl.
  - by apply sublist_cons.
  - by apply sublist_skip.
Qed.

Lemma failed_of_length files : ∀ lines,
  Forall2 line_about files lines →
  (Z.of_nat (length (failed_of files lines)) + successes lines
   = Z.of_nat (length files))%Z.
Proof.
  induction files as [|f files IH]; intros lines Hall;
    inversion Hall as [|? l ? lines' _ Hrest]; subst; [done|].
  specialize (IH _ Hrest). unfold successes in *. simpl.
  destruct (is_success l); simpl; lia.
Qed.

(** The counters of a run. *)
Lemma reachable_counters st :
  reachable w d q c st →
  optimized_files (stats st) = total_files (stats st)
  ∧ 0 ≤ optimized_files (stats st)
  ∧ 0 ≤ total_original_bytes (stats st)
  ∧ 0 ≤ total_optimized_bytes (stats st).
Proof.
  induction 1 as [st Hinit|st src _ IH|st idx _ IH]; [by rewrite Hinit| |done].
  destruct (optimize_image_spec src st) as (l & _ & _ & Hs).
  destruct (is_success l).
  - destruct Hs as (o & n & ? & ? & ->). simpl. lia.
  - rewrite Hs. simpl. lia.
Qed.

Lemma worker_loop_reachable files : ∀ idx st,
  reachable w d q c st → reachable w d q c (worker_loop w d q c idx files st).
Proof.
  induction files as [|f files IH]; intros idx st Hst; simpl; [done|].
  apply IH. by apply reach_progress, reach_file.
Qed.

Lemma save_in_expected files src im p kw :
  CallSave p kw ∈ expected_calls files src d q c im →
  let plan := save_plan (PyStr.lower (Path.suffix src)) q c in
  p = final_dest files (planned_dest src d im plan.1) ∧ kw = plan.2.
Proof.
  intros Hin plan. unfold expected_calls in Hin. fold plan in Hin.
  destruct (oxipng_wanted _ c); simpl in Hin;
    repeat (apply elem_of_cons in Hin as [Hin|Hin];
            [try discriminate; try by injection Hin|]);
    by apply elem_of_nil in Hin.
Qed.

(** The [save] calls of a file: at most the one of the expected pass. *)
Lemma save_calls_spec src st cs p kw :
  history (optimize_image w src d q c st) = history st ++ cs →
  CallSave p kw ∈ cs →
  let plan := save_plan (PyStr.lower (Path.suffix src)) q c in
  ∃ im, source_image (fs st) src = Some im
        ∧ p = final_dest (fs st) (planned_dest src d im plan.1)
        ∧ kw = plan.2.
Proof.
  rewrite optimize_image_history. intros Hcs Hin plan.
  pose proof (optimize_body_spec w src d q c st) as H.
  destruct (optimize_body w src d q c st) as [[u|e] st1]; simpl in Hcs.
  - destruct H as (im & cp & Him & Hh & _).
    rewrite Hh in Hcs. apply app_inv_head in Hcs. subst cs.
    exists im. split; [done|]. by apply save_in_expected.
  - destruct H as (cs' & (Hh & _) & _ & Hshape).
    rewrite Hh in Hcs. apply app_inv_head in Hcs. subst cs'.
    destruct Hshape as [->|(im & Him & [k Hk])].
    { apply list_elem_of_singleton in Hin. discriminate. }
    exists im. split; [done|]. apply save_in_expected.
    rewrite Hk. apply elem_of_app. by left.
Qed.

(** Without faults, a source that decodes is processed to the end. *)
Lemma optimize_body_no_fault src st im :
  no_fault w → source_image (fs st) src = Some im →
  (optimize_body w src d q c st).1 = Ok tt.
Proof.
  intros Hw Him. pose proof (optimize_body_spec w src d q c st) as H.
  destruct (optimize_body w src d q c st) as [[[]|e] st1]; [done|].
  destruct H as (_ & _ & Hwhy & _). exfalso.
  unfold source_image in Him.
  destruct Hwhy as [(h & k & Hf)|[[Hn _]|(f & Hf & Hd & _)]].
  - by rewrite Hw in Hf.
  - by rewrite Hn in Him.
  - rewrite Hf in Him. simpl in Him. by rewrite Hd in Him.
Qed.

End Run.

(** * The shape of the digest *)

Module Blake2bFacts.
Import Blake2b.

Lemma F_length h m t fin : length (F h m t fin) = 8%nat.
Proof. unfold F. by rewrite List.length_map, List.length_seq. Qed.

Lemma absorb_length fuel : ∀ h t data, length (absorb fuel h t data) = 8%nat.
Proof.
  induction fuel as [|fuel IH]; intros h t data; cbn [absorb].
  - apply F_length.
  - destruct (128 <? length data)%nat; [apply IH|apply F_length].
Qed.

Lemma digest4_length data : length (digest 4 data) = 4%nat.
Proof.
  unfold digest.
  match goal with |- context [absorb ?f ?h ?t ?d] =>
    pose proof (absorb_length f h t d) as Hlen;
    destruct (absorb f h t d) as [|x hs]; [discriminate|] end.
  reflexivity.
Qed.

Lemma hex_length bs : String.length (hex bs) = (2 * length bs)%nat.
Proof. induction bs as [|b bs IH]; simpl; [done|]. rewrite IH. lia. Qed.

Lemma hex_char_is_hex n : is_hex_digit (hex_char n) = true.
Proof.
  unfold hex_char. pose proof (Z.mod_pos_bound n 16 eq_refl) as Hb.
  assert (Z.to_nat (n mod 16) < 16)%nat as Hlt by lia.
  destruct (Z.to_nat (n mod 16)) as [|[|[|[|[|[|[|[|[|[|[|[|[|[|[|[|k]]]]]]]]]]]]]]]];
    try reflexivity; lia.
Qed.

Lemma hex_all_hex bs : all_chars is_hex_digit (hex bs) = true.
Proof.
  induction bs as [|b bs IH]; simpl; [done|].
  by rewrite !hex_char_is_hex, IH.
Qed.

End Blake2bFacts.

(** * The name of the destination *)

Lemma length_lower (s : string) :
  String.length (PyStr.lower s) = String.length s.
Proof. induction s as [|x s IH]; simpl; [done|by rewrite IH]. Qed.

Lemma lower_lower (s : string) : PyStr.lower (PyStr.lower s) = PyStr.lower s.
Proof.
  induction s as [|x s IH]; simpl; [done|]. rewrite IH. f_equal.
  by destruct x as [[] [] [] [] [] [] [] []].
Qed.

(** The name and the suffix of the destination, for a source with a
    suffix. *)
Lemma final_dest_name files src d im q c :
  Path.suffix src ≠ "" →
  let plan := save_plan (PyStr.lower (Path.suffix src)) q c in
  let dest := final_dest files (planned_dest src d im plan.1) in
  (Path.name dest = spec_stem src im +:+ plan.1
   ∨ Path.name dest = (spec_stem src im +:+ "-dup") +:+ plan.1)
  ∧ Path.suffix dest = plan.1.
Proof.
  intros Hsfx plan dest. subst dest. set (p := planned_dest src d im plan.1).
  assert (Path.name p = spec_stem src im +:+ plan.1) as Hname
    by by apply NamingFacts.planned_dest_name.
  assert (is_ext plan.1) as Hext
    by apply NamingFacts.save_plan_is_ext, NamingFacts.is_ext_lower,
         NamingFacts.is_ext_suffix, Hsfx.
  assert (Path.stem p = spec_stem src im) as Hstem.
  { unfold Path.stem. rewrite Hname.
    by apply NamingFacts.name_stem_ext; [apply NamingFacts.spec_stem_ne|]. }
  assert (Path.suffix p = plan.1) as Hsuffix.
  { unfold Path.suffix. rewrite Hname.
    by apply NamingFacts.name_suffix_ext; [apply NamingFacts.spec_stem_ne|]. }
  unfold final_dest. case_bool_decide; [|by split; [left|]].
  assert (Path.name (dup_of p) = (spec_stem src im +:+ "-dup") +:+ plan.1)
    as Hdup by by rewrite NamingFacts.dup_of_name, Hstem, Hsuffix.
  split; [by right|]. unfold Path.suffix. rewrite Hdup.
  apply NamingFacts.name_suffix_ext; [|done].
  intros H0. apply PyStrFacts.app_eq_nil in H0 as [H0 _].
  by apply NamingFacts.spec_stem_ne in H0.
Qed.

(** The destination is never the source: its name is longer. *)
Lemma final_dest_ne_src files src d im q c :
  Path.suffix src ≠ "" →
  final_dest files
    (planned_dest src d im (save_plan (PyStr.lower (Path.suffix src)) q c).1)
  ≠ src.
Proof.
  intros Hsfx Heq.
  destruct (final_dest_name files src d im q c Hsfx) as (Hname & _).
  simpl in Hname. rewrite Heq in Hname.
  assert (String.length (Path.suffix src)
          ≤ String.length (save_plan (PyStr.lower (Path.suffix src)) q c).1)%nat
    as Hlen.
  { destruct (NamingFacts.save_plan_ext (PyStr.lower (Path.suffix src)) q c)
      as [->|(-> & Hpng & _)].
    - by rewrite length_lower.
    - rewrite <- (length_lower (Path.suffix src)), Hpng. simpl. lia. }
  assert (String.length (Path.name src)
          = String.length (Path.stem src) + String.length (Path.suffix src))%nat
    as Hsrc.
  { rewrite <- PyStrFacts.length_app. unfold Path.stem, Path.suffix.
    by rewrite PathFacts.name_stem_suffix. }
  assert (String.length (Path.stem src) < String.length (spec_stem src im))%nat
    as Hstem.
  { unfold spec_stem. rewrite !PyStrFacts.length_app. simpl. lia. }
  destruct Hname as [Hname|Hname];
    apply (f_equal String.length) in Hname;
    rewrite ?PyStrFacts.length_app in Hname; simpl in Hname; lia.
Qed.

(** The stem of the destination: the specified stem, followed by
    ["-dup"] when the computed destination is taken. *)
Lemma final_dest_stem files src d im q c :
  Path.suffix src ≠ "" →
  let p := planned_dest src d im
             (save_plan (PyStr.lower (Path.suffix src)) q c).1 in
  Path.stem (final_dest files p)
  = if bool_decide (is_Some (files !! p))
    then spec_stem src im +:+ "-dup" else spec_stem src im.
Proof.
  intros Hsfx p. set (plan := save_plan (PyStr.lower (Path.suffix src)) q c) in *.
  assert (Path.name p = spec_stem src im +:+ plan.1) as Hname
    by by apply NamingFacts.planned_dest_name.
  assert (is_ext plan.1) as Hext
    by apply NamingFacts.save_plan_is_ext, NamingFacts.is_ext_lower,
         NamingFacts.is_ext_suffix, Hsfx.
  assert (Path.stem p = spec_stem src im) as Hstem.
  { unfold Path.stem. rewrite Hname.
    by apply NamingFacts.name_stem_ext; [apply NamingFacts.spec_stem_ne|]. }
  assert (Path.suffix p = plan.1) as Hsuffix.
  { unfold Path.suffix. rewrite Hname.
    by apply NamingFacts.name_suffix_ext; [apply NamingFacts.spec_stem_ne|]. }
  unfold final_dest. case_bool_decide; [|done].
  unfold Path.stem. rewrite NamingFacts.dup_of_name, Hstem, Hsuffix.
  apply NamingFacts.name_stem_ext; [|done].
  intros H0. apply PyStrFacts.app_eq_nil in H0 as [H0 _].
  by apply NamingFacts.spec_stem_ne in H0.
Qed.

(** * The properties of the specification *)

(** C9.  [percent_saved] is exactly 0 when [total_original_bytes] is 0, and
    is the quotient 100 × (total_original_bytes − total_optimized_bytes) /
    total_original_bytes in every state with [total_original_bytes > 0]. *)
Theorem C9_percent_saved (s : Stats) :
  (total_original_bytes s = 0 → percent_saved s = 0%Q)
  ∧ (0 < total_original_bytes s →
     (percent_saved s
      == 100 * (inject_Z (total_original_bytes s)
                - inject_Z (total_optimized_bytes s))
         / inject_Z (total_original_bytes s))%Q).
Proof.
  unfold percent_saved. split.
  - by intros ->.
  - intros Hpos. destruct (Z.eqb_spec (total_original_bytes s) 0) as [H0|_]; [lia|].
    rewrite inject_Z_mult. unfold Z.sub.
    rewrite inject_Z_plus, inject_Z_opp. reflexivity.
Qed.

Lemma C9_percent_saved_witness :
  percent_saved Stats_init = 0%Q
  ∧ (percent_saved (mkStats 1 1 50000 30000 []) == 40)%Q.
Proof.
  split.
  - apply (proj1 (C9_percent_saved Stats_init)). reflexivity.
  - eapply Qeq_trans.
    + apply (proj2 (C9_percent_saved (mkStats 1 1 50000 30000 []))).
      simpl. lia.
    + reflexivity.
Defined.

(** C8.  The encoding plan is a function of the lower-cased source
    suffix and the configuration: jpg and jpeg keep their extension and
    get the configured quality, progressive and optimize; png without
    conversion keeps its extension and gets compress level 9 and
    optimize; png with conversion becomes webp with the configured
    quality and lossless off; webp keeps its extension and gets the
    configured quality and optimize.  Every [save] the pipeline makes
    carries the planned arguments. *)
Theorem C8_encoding_plan (quality : Z) :
  (∀ convert,
     save_plan ".jpg" quality convert
     = (".jpg", {[ "quality" := KInt quality; "progressive" := KBool true;
                   "optimize" := KBool true ]})
     ∧ save_plan ".jpeg" quality convert
       = (".jpeg", {[ "quality" := KInt quality; "progressive" := KBool true;
                      "optimize" := KBool true ]})
     ∧ save_plan ".webp" quality convert
       = (".webp", {[ "quality" := KInt quality; "optimize" := KBool true ]}))
  ∧ save_plan ".png" quality false
    = (".png", {[ "compress_level" := KInt 9; "optimize" := KBool true ]})
  ∧ save_plan ".png" quality true
    = (".webp", {[ "quality" := KInt quality; "lossless" := KBool false;
                   "optimize" := KBool true ]})
  ∧ (∀ w src dest_dir convert st cs p kw,
       history (optimize_image w src dest_dir quality convert st)
       = history st ++ cs →
       CallSave p kw ∈ cs →
       kw = (save_plan (PyStr.lower (Path.suffix src)) quality convert).2).
Proof.
  split; [intros []; by repeat split|].
  split; [done|]. split; [done|].
  intros w src dest_dir convert st cs p kw Hcs Hin.
  by destruct (save_calls_spec _ _ _ _ _ _ _ _ _ Hcs Hin) as (im & _ & _ & ->).
Qed.

Local Ltac in_computed_list :=
  vm_compute;
  repeat first [apply list_elem_of_here | apply list_elem_of_further].

Lemma C8_encoding_plan_witness :
  (save_plan ".jpg" 80 false).2
  = (save_plan (PyStr.lower (Path.suffix Example.nested)) 80 false).2.
Proof.
  apply (proj2 (proj2 (proj2 (C8_encoding_plan 80)))
           Example.calm Example.nested Example.photos false
           (start_state Example.tree)
           (history (optimize_image Example.calm Example.nested Example.photos
                       80 false (start_state Example.tree)))
           ["photos"; "a-2x1-e8975c42.jpg"]).
  - reflexivity.
  - in_computed_list.
Defined.

(** C5 does not hold as stated: the second of two runs over the same
    source into the same folder finds the output of the first and writes
    to the stem followed by ["-dup"]. *)
Lemma C5_second_run_is_renamed : ¬ two_runs_same_stem.
Proof.
  intros H.
  assert (Path.stem Example.taken = Path.stem Example.taken_dup) as Hstem.
  { apply (H Example.calm Example.nested Example.out 80 false
             (start_state Example.tree)
             (history Example.first_run)
             (expected_calls (fs Example.first_run) Example.nested Example.out
                80 false (strip_exif Example.photo))
             Example.taken Example.taken_dup
             (save_plan (PyStr.lower (Path.suffix Example.nested)) 80 false).2
             (save_plan (PyStr.lower (Path.suffix Example.nested)) 80 false).2).
    - reflexivity.
    - in_computed_list.
    - vm_compute. reflexivity.
    - in_computed_list. }
  vm_compute in Hstem. discriminate.
Qed.

(** C5, amended.  The digest is 8 hexadecimal characters over the first
    32768 bytes of the decoded pixel buffer; the stem of the computed
    destination is ["<stem>-<width>x<height>-<digest>"], with and without
    the conversion of PNG to WebP; equal source stems, sizes and pixels
    give equal computed stems.  The stem of the file that is written is
    the computed stem when the computed destination is free, and the
    computed stem followed by ["-dup"] when it is taken: so the second
    of two runs over the same source into the same folder writes to the
    ["-dup"] stem. *)
Theorem C5_naming (src dest_dir : Path.t) (img : Image) (quality : Z) :
  Path.suffix src ≠ "" →
  slug_digest img = Blake2b.hexdigest 4 (take (Z.to_nat 32768) (tobytes img))
  ∧ String.length (slug_digest img) = 8%nat
  ∧ all_chars is_hex_digit (slug_digest img) = true
  ∧ slug_digest (strip_exif img) = slug_digest img
  ∧ (∀ img',
       take (Z.to_nat 32768) (tobytes img') = take (Z.to_nat 32768) (tobytes img) →
       slug_digest img' = slug_digest img)
  ∧ (∀ convert,
       Path.stem (planned_dest src dest_dir img
                    (save_plan (PyStr.lower (Path.suffix src)) quality convert).1)
       = Path.stem src +:+ "-" +:+ pretty (width img) +:+ "x"
           +:+ pretty (height img) +:+ "-" +:+ slug_digest img)
  ∧ (∀ src' img',
       Path.stem src' = Path.stem src →
       width img' = width img → height img' = height img →
       take (Z.to_nat 32768) (tobytes img') = take (Z.to_nat 32768) (tobytes img) →
       spec_stem src' img' = spec_stem src img)
  ∧ (∀ files convert src' img',
       Path.stem src' = Path.stem src →
       PyStr.lower (Path.suffix src') = PyStr.lower (Path.suffix src) →
       width img' = width img → height img' = height img →
       take (Z.to_nat 32768) (tobytes img') = take (Z.to_nat 32768) (tobytes img) →
       let out_ext := (save_plan (PyStr.lower (Path.suffix src)) quality convert).1 in
       final_dest files (planned_dest src' dest_dir img' out_ext)
       = final_dest files (planned_dest src dest_dir img out_ext))
  ∧ (∀ w convert st cs p kw,
       history (optimize_image w src dest_dir quality convert st)
       = history st ++ cs →
       CallSave p kw ∈ cs →
       ∃ im,
         source_image (fs st) src = Some im
         ∧ let computed :=
             planned_dest src dest_dir im
               (save_plan (PyStr.lower (Path.suffix src)) quality convert).1 in
           Path.stem p
           = if bool_decide (is_Some (fs st !! computed))
             then spec_stem src im +:+ "-dup" else spec_stem src im)
  ∧ (∀ w convert st cs2 p2 kw2,
       let st1 := optimize_image w src dest_dir quality convert st in
       let st2 := optimize_image w src dest_dir quality convert st1 in
       (optimize_body w src dest_dir quality convert st).1 = Ok tt →
       history st2 = history st1 ++ cs2 →
       CallSave p2 kw2 ∈ cs2 →
       ∃ im,
         source_image (fs st) src = Some im
         ∧ Path.stem p2 = spec_stem src im +:+ "-dup").
Proof.
  intros Hsfx. split; [reflexivity|].
  split; [unfold slug_digest, Blake2b.hexdigest;
          by rewrite Blake2bFacts.hex_length, Blake2bFacts.digest4_length|].
  split; [apply Blake2bFacts.hex_all_hex|].
  split; [unfold slug_digest, strip_exif; cbn [tobytes]; reflexivity|].
  split; [intros img' Hpx; unfold slug_digest, hash_prefix_len;
          rewrite Hpx; reflexivity|].
  split.
  - intros convert. unfold Path.stem.
    rewrite NamingFacts.planned_dest_name by done.
    rewrite NamingFacts.name_stem_ext; [done|apply NamingFacts.spec_stem_ne|].
    apply NamingFacts.save_plan_is_ext, NamingFacts.is_ext_lower,
      NamingFacts.is_ext_suffix, Hsfx.
  - assert (∀ src' img',
              Path.stem src' = Path.stem src →
              width img' = width img → height img' = height img →
              take (Z.to_nat 32768) (tobytes img')
              = take (Z.to_nat 32768) (tobytes img) →
              spec_stem src' img' = spec_stem src img) as Hsame.
    { intros src' img' Hstem Hw Hh Hpx.
      unfold spec_stem, slug_digest, hash_prefix_len.
      rewrite Hstem, Hw, Hh, Hpx. reflexivity. }
    split; [exact Hsame|]. split; [|split].
    + intros files convert src' img' Hstem Hlow Hw Hh Hpx out_ext.
      assert (Path.suffix src' ≠ "") as Hsfx'.
      { intros H0. rewrite H0 in Hlow. symmetry in Hlow.
        by apply PyStrFacts.lower_eq_nil in Hlow. }
      f_equal. unfold planned_dest.
      rewrite !NamingFacts.slug_for_split by done.
      by rewrite Hlow, (Hsame src' img').
    + intros w convert st cs p kw Hcs Hin.
      destruct (save_calls_spec _ _ _ _ _ _ _ _ _ Hcs Hin) as (im & Him & -> & _).
      exists im. split; [done|]. by apply final_dest_stem.
    + intros w convert st cs2 p2 kw2 st1 st2 Hok Hcs Hin. subst st2.
      pose proof (optimize_body_spec w src dest_dir quality convert st) as H.
      assert (st1 = (optimize_body w src dest_dir quality convert st).2) as Hst1.
      { subst st1. unfold optimize_image.
        by destruct (optimize_body w src dest_dir quality convert st)
          as [[[]|e] st']. }
      destruct (optimize_body w src dest_dir quality convert st)
        as [[[]|e] st'] eqn:Hb; [|done].
      simpl in Hst1. clearbody st1. subst st'.
      destruct H as (im & cp & Him & _ & _ & Hfs & _).
      set (plan := save_plan (PyStr.lower (Path.suffix src)) quality convert) in *.
      set (computed := planned_dest src dest_dir im plan.1) in *.
      assert (final_dest (fs st) computed ≠ src) as Hne
        by by apply final_dest_ne_src.
      assert (source_image (fs st1) src = Some im) as Him1.
      { unfold source_image in *. by rewrite Hfs, lookup_insert_ne. }
      assert (is_Some (fs st1 !! computed)) as Htaken.
      { rewrite Hfs. unfold final_dest. case_bool_decide as Hp.
        - destruct (decide (dup_of computed = computed)) as [->|Hdup].
          + rewrite lookup_insert_eq. by eexists.
          + by rewrite lookup_insert_ne.
        - rewrite lookup_insert_eq. by eexists. }
      destruct (save_calls_spec _ _ _ _ _ _ _ _ _ Hcs Hin) as (im' & Him' & -> & _).
      rewrite Him1 in Him'. injection Him' as <-.
      exists im. split; [done|].
      rewrite (final_dest_stem (fs st1) src dest_dir im quality convert Hsfx).
      fold plan computed. by rewrite bool_decide_eq_true_2.
Qed.

Lemma C5_naming_witness :
  Path.stem (planned_dest Example.icon Example.out Example.photo
               (save_plan (PyStr.lower (Path.suffix Example.icon)) 80 true).1)
  = Path.stem (planned_dest Example.icon Example.out Example.photo
                 (save_plan (PyStr.lower (Path.suffix Example.icon)) 80 false).1).
Proof.
  assert (Path.suffix Example.icon ≠ "") as Hsfx by (vm_compute; discriminate).
  pose proof (proj1 (proj2 (proj2 (proj2 (proj2 (proj2
                (C5_naming Example.icon Example.out Example.photo 80 Hsfx)))))))
    as Hstem.
  exact (eq_trans (Hstem true) (eq_sym (Hstem false))).
Defined.

Example C5_names_of_icon :
  Path.name (planned_dest Example.icon Example.out Example.photo ".png")
  = "icon-2x1-e8975c42.png"
  ∧ Path.name (planned_dest Example.icon Example.out Example.photo ".webp")
    = "icon-2x1-e8975c42.webp".
Proof. split; vm_compute; reflexivity. Qed.

(** C6.  When the computed destination exists, the file is written to the
    path whose stem is the computed stem followed by one ["-dup"] (same
    folder, same extension); when it does not exist, the file is written
    to the computed destination itself. *)
Theorem C6_single_collision (w : World) (src dest_dir : Path.t) (quality : Z)
    (convert : bool) (st : State) (im : Image) :
  source_image (fs st) src = Some im →
  Path.suffix src ≠ "" →
  let plan := save_plan (PyStr.lower (Path.suffix src)) quality convert in
  let p := planned_dest src dest_dir im plan.1 in
  let st' := optimize_image w src dest_dir quality convert st in
  (* every save of this file goes to the destination after the test *)
  (∀ cs p' kw,
     history st' = history st ++ cs → CallSave p' kw ∈ cs →
     p' = final_dest (fs st) p)
  (* a pass that completes has saved there *)
  ∧ ((optimize_body w src dest_dir quality convert st).1 = Ok tt →
     CallSave (final_dest (fs st) p) plan.2
       ∈ expected_calls (fs st) src dest_dir quality convert im
     ∧ history st'
       = history st ++ expected_calls (fs st) src dest_dir quality convert im
     ∧ is_Some (fs st' !! final_dest (fs st) p))
  (* taken: one "-dup" after the stem *)
  ∧ (is_Some (fs st !! p) →
     final_dest (fs st) p = dup_of p
     ∧ Path.stem (dup_of p) = Path.stem p +:+ "-dup"
     ∧ Path.name (dup_of p) = spec_stem src im +:+ "-dup" +:+ plan.1
     ∧ Path.suffix (dup_of p) = Path.suffix p
     ∧ Path.parent (dup_of p) = Path.parent p)
  (* free: the computed destination *)
  ∧ (fs st !! p = None →
     final_dest (fs st) p = p ∧ Path.name p = spec_stem src im +:+ plan.1).
Proof.
  intros Him Hsfx plan p st'.
  assert (Path.name p = spec_stem src im +:+ plan.1) as Hname
    by by apply NamingFacts.planned_dest_name.
  assert (is_ext plan.1) as Hext
    by apply NamingFacts.save_plan_is_ext, NamingFacts.is_ext_lower,
         NamingFacts.is_ext_suffix, Hsfx.
  assert (Path.stem p = spec_stem src im) as Hstem.
  { unfold Path.stem. rewrite Hname.
    by apply NamingFacts.name_stem_ext; [apply NamingFacts.spec_stem_ne|]. }
  assert (Path.suffix p = plan.1) as Hsuffix.
  { unfold Path.suffix. rewrite Hname.
    by apply NamingFacts.name_suffix_ext; [apply NamingFacts.spec_stem_ne|]. }
  split; [|split; [|split]].
  - intros cs p' kw Hcs Hin.
    destruct (save_calls_spec _ _ _ _ _ _ _ _ _ Hcs Hin) as (im' & Him' & -> & _).
    rewrite Him in Him'. by injection Him' as <-.
  - intros Hok. subst st'. rewrite optimize_image_history, optimize_image_fs.
    pose proof (optimize_body_spec w src dest_dir quality convert st) as H.
    destruct (optimize_body w src dest_dir quality convert st) as [[u|e] st1];
      [|done].
    destruct H as (im' & cp & Him' & Hh & _ & Hfs & _).
    rewrite Him in Him'. injection Him' as <-. simpl.
    split; [|split; [done|]].
    + unfold expected_calls. fold plan p.
      do 4 apply list_elem_of_further. apply list_elem_of_here.
    + rewrite Hfs. fold plan p. by rewrite lookup_insert_eq.
  - intros Htaken. unfold final_dest. rewrite bool_decide_eq_true_2 by done.
    assert (Path.name (dup_of p) = (spec_stem src im +:+ "-dup") +:+ plan.1)
      as Hdup by by rewrite NamingFacts.dup_of_name, Hstem, Hsuffix.
    assert (spec_stem src im +:+ "-dup" ≠ "") as Hne.
    { intros H. apply PyStrFacts.app_eq_nil in H as [H _].
      by apply NamingFacts.spec_stem_ne in H. }
    split; [done|]. split; [|split; [|split]].
    + unfold Path.stem at 1. rewrite Hdup, Hstem.
      by apply NamingFacts.name_stem_ext.
    + by rewrite Hdup, PyStrFacts.app_assoc.
    + unfold Path.suffix at 1. rewrite Hdup, Hsuffix.
      by apply NamingFacts.name_suffix_ext.
    + apply NamingFacts.dup_of_parent.
  - intros Hfree. unfold final_dest. rewrite bool_decide_eq_false_2; [done|].
    rewrite Hfree. by intros [? ?].
Qed.

Lemma C6_single_collision_witness :
  final_dest Example.once Example.planned = dup_of Example.planned
  ∧ Path.stem (dup_of Example.planned) = Path.stem Example.planned +:+ "-dup".
Proof.
  assert (source_image (fs (start_state Example.once)) Example.nested
          = Some (strip_exif Example.photo)) as Him by (vm_compute; reflexivity).
  assert (Path.suffix Example.nested ≠ "") as Hsfx by (vm_compute; discriminate).
  assert (is_Some (fs (start_state Example.once) !! Example.planned)) as Hex
    by (vm_compute; by eexists).
  pose proof (C6_single_collision Example.calm Example.nested Example.out 80
                false (start_state Example.once) _ Him Hsfx)
    as (_ & _ & Htaken & _).
  destruct (Htaken Hex) as (Hdest & Hstem & _).
  split; [exact Hdest|exact Hstem].
Defined.

Example C6_names_of_nested :
  Example.planned = Example.taken
  ∧ dup_of Example.planned = Example.taken_dup
  ∧ fs (optimize_image Example.calm Example.nested Example.out 80 false
          (start_state Example.once)) !! Example.taken_dup
    = Some (mkFile 30000 (Some (strip_exif Example.photo))).
Proof. repeat split; vm_compute; reflexivity. Qed.

(** C10.  When both the computed destination and its ["-dup"] variant
    exist, and nothing raises, the file is written over the ["-dup"]
    variant: no further renaming, no error, and the file is counted as a
    success. *)
Theorem C10_second_collision (w : World) (src dest_dir : Path.t) (quality : Z)
    (convert : bool) (st : State) (im : Image) :
  no_fault w →
  source_image (fs st) src = Some im →
  let plan := save_plan (PyStr.lower (Path.suffix src)) quality convert in
  let p := planned_dest src dest_dir im plan.1 in
  is_Some (fs st !! p) →
  is_Some (fs st !! dup_of p) →
  let st' := optimize_image w src dest_dir quality convert st in
  (optimize_body w src dest_dir quality convert st).1 = Ok tt
  ∧ (∀ cs p' kw,
       history st' = history st ++ cs → CallSave p' kw ∈ cs → p' = dup_of p)
  ∧ ∃ compressed fsrc,
      let f := written_file w im (dup_of p) plan.2 compressed in
      fs st' = <[dup_of p := f]> (fs st)
      ∧ stats st'
        = add (stats st) (Z.of_N (st_size fsrc)) (Z.of_N (st_size f))
      ∧ failures (stats st') = failures (stats st)
      ∧ log_queue st'
        = log_queue st ++
            [LogLine (LogOptimized (Path.name src) (Path.name (dup_of p))
                        (Z.of_N (st_size fsrc)) (Z.of_N (st_size f)))].
Proof.
  intros Hw Him plan p Hp Hdup st'.
  pose proof (optimize_body_no_fault w dest_dir quality convert src st im Hw Him)
    as Hok.
  assert (final_dest (fs st) p = dup_of p) as Hdest
    by (unfold final_dest; by rewrite bool_decide_eq_true_2).
  split; [done|]. split.
  - intros cs p' kw Hcs Hin.
    destruct (save_calls_spec _ _ _ _ _ _ _ _ _ Hcs Hin) as (im' & Him' & -> & _).
    rewrite Him in Him'. injection Him' as <-. exact Hdest.
  - subst st'.
    pose proof (optimize_body_spec w src dest_dir quality convert st) as H.
    destruct (optimize_body w src dest_dir quality convert st) as [[u|e] st1] eqn:Hb;
      [|done].
    rewrite (optimize_image_ok _ _ _ _ _ _ _ _ Hb).
    destruct H as (im' & cp & Him' & _ & _ & Hfs & fsrc & _ & Hs & Hl).
    rewrite Him in Him'. injection Him' as <-.
    fold plan p in Hfs, Hs, Hl. rewrite Hdest in Hfs, Hs, Hl.
    exists cp, fsrc. split; [done|]. split; [done|]. split; [|done].
    by rewrite Hs.
Qed.

Lemma C10_second_collision_witness :
  (optimize_body Example.calm Example.nested Example.out 80 false
     (start_state Example.crowded)).1 = Ok tt
  ∧ Example.taken_dup = dup_of Example.planned.
Proof.
  assert (no_fault Example.calm) as Hw by (intros h c; reflexivity).
  assert (source_image (fs (start_state Example.crowded)) Example.nested
          = Some (strip_exif Example.photo)) as Him by (vm_compute; reflexivity).
  assert (is_Some (fs (start_state Example.crowded) !! Example.planned)) as Hp
    by (vm_compute; by eexists).
  assert (is_Some (fs (start_state Example.crowded) !! dup_of Example.planned))
    as Hdup by (vm_compute; by eexists).
  pose proof (C10_second_collision Example.calm Example.nested Example.out 80
                false (start_state Example.crowded) _ Hw Him Hp Hdup)
    as (Hok & Hsave & _).
  split; [exact Hok|].
  apply (Hsave (history (optimize_image Example.calm Example.nested Example.out
                           80 false (start_state Example.crowded)))
               Example.taken_dup
               (save_plan (PyStr.lower (Path.suffix Example.nested)) 80 false).2).
  - reflexivity.
  - in_computed_list.
Defined.

Example C10_dup_is_overwritten :
  let st' := optimize_image Example.calm Example.nested Example.out 80 false
               (start_state Example.crowded) in
  Example.crowded !! Example.taken_dup = Some (mkFile 22 None)
  ∧ fs st' !! Example.taken_dup
    = Some (mkFile 30000 (Some (strip_exif Example.photo)))
  ∧ fs st' !! Example.taken = Some (mkFile 11 None)
  ∧ stats st' = mkStats 1 1 50000 30000 [].
Proof. repeat split; vm_compute; reflexivity. Qed.



(** C3 does not hold as stated: for the file of four garbage bytes the
    entry is the path and nothing else. *)
Lemma C3_entry_is_path_only : ¬ failures_carry_reason.
Proof.
  intros H.
  destruct (H Example.calm Example.broken Example.photos 80 false
              (start_state Example.tree) UnidentifiedImageError)
    as (entry & Hlast & _ & Hreason); [vm_compute; reflexivity|].
  vm_compute in Hlast. injection Hlast as <-.
  vm_compute in Hreason. discriminate.
Qed.

(** C3, amended.  The entry recorded in [failures] for a failed or skipped
    file is the path of the file, [str(src)], alone; the reason goes to
    the log line.  The list keeps the order of the run: after a run it is
    the list before it followed by the paths of the files that did not
    succeed, in the order of the file list. *)
Theorem C3_failures_are_paths_in_order :
  (∀ w src dest_dir quality convert st,
     let st' := optimize_image w src dest_dir quality convert st in
     match (optimize_body w src dest_dir quality convert st).1 with
     | Ok _ => failures (stats st') = failures (stats st)
     | Raise e =>
         failures (stats st') = failures (stats st) ++ [Path.str src]
         ∧ log_queue st' = log_queue st ++ [LogLine (failure_line src e)]
     end)
  ∧ (∀ w app files st,
       let st' := worker w app files st in
       ∃ lines,
         Forall2 line_about files lines
         ∧ log_queue st'
           = log_queue st ++ run_events 1 lines ++ [Done (stats st')]
         ∧ failed_of files lines `sublist_of` files
         ∧ failures (stats st')
           = failures (stats st) ++ (Path.str <$> failed_of files lines)).
Proof.
  split.
  - intros w src dest_dir quality convert st st'. subst st'.
    pose proof (optimize_body_spec w src dest_dir quality convert st) as H.
    destruct (optimize_body w src dest_dir quality convert st) as [[u|e] st1] eqn:Hb.
    + rewrite (optimize_image_ok _ _ _ _ _ _ _ _ Hb). simpl.
      destruct H as (im & cp & _ & _ & _ & _ & fsrc & _ & Hs & _).
      by rewrite Hs.
    + rewrite (optimize_image_raise _ _ _ _ _ _ _ _ Hb).
      destruct H as (cs & (_ & Hs & Hl) & _). simpl. by rewrite Hs, Hl.
  - intros w app files st st'. subst st'. unfold worker.
    destruct (worker_loop_spec w (default (src_folder app) (dest_folder app))
                (quality_var app) (png_var app) files 1 st)
      as (lines & Hall & Hlog & Hfail & _).
    exists lines. split; [done|]. simpl.
    split; [by rewrite Hlog, <- app_assoc|].
    split; [apply failed_of_sublist|done].
Qed.

(** C4.  In every state of a run the two file counters are equal (so
    [optimized_files ≤ total_files]) and no counter is negative.  From
    such a state, a file that succeeds advances the four counters
    together, the files by one and the bytes by the two measured sizes;
    a file that fails or is skipped leaves the four counters as they
    are. *)
Theorem C4_counters (w : World) (dest_dir : Path.t) (quality : Z)
    (convert : bool) (st : State) :
  reachable w dest_dir quality convert st →
  (optimized_files (stats st) ≤ total_files (stats st)
   ∧ optimized_files (stats st) = total_files (stats st)
   ∧ 0 ≤ optimized_files (stats st)
   ∧ 0 ≤ total_original_bytes (stats st)
   ∧ 0 ≤ total_optimized_bytes (stats st))
  ∧ ∀ src,
      let st' := optimize_image w src dest_dir quality convert st in
      match (optimize_body w src dest_dir quality convert st).1 with
      | Ok _ =>
          ∃ o n, 0 ≤ o ∧ 0 ≤ n
            ∧ total_files (stats st') = total_files (stats st) + 1
            ∧ optimized_files (stats st') = optimized_files (stats st) + 1
            ∧ total_original_bytes (stats st') = total_original_bytes (stats st) + o
            ∧ total_optimized_bytes (stats st') = total_optimized_bytes (stats st) + n
      | Raise _ =>
          total_files (stats st') = total_files (stats st)
          ∧ optimized_files (stats st') = optimized_files (stats st)
          ∧ total_original_bytes (stats st') = total_original_bytes (stats st)
          ∧ total_optimized_bytes (stats st') = total_optimized_bytes (stats st)
      end
      ∧ ∀ o n s,
          s ∈ add_steps (stats st) o n →
          optimized_files s ≤ total_files s
          ∧ last (add_steps (stats st) o n) = Some (add (stats st) o n).
Proof.
  intros Hreach.
  destruct (reachable_counters _ _ _ _ _ Hreach) as (Heq & ? & ? & ?).
  split; [repeat split; lia|].
  intros src st'. split.
  - subst st'.
    pose proof (optimize_body_spec w src dest_dir quality convert st) as Hbody.
    destruct (optimize_body w src dest_dir quality convert st) as [[u|e] st1] eqn:Hb.
    + rewrite (optimize_image_ok _ _ _ _ _ _ _ _ Hb). simpl.
      destruct Hbody as (im & cp & _ & _ & _ & _ & fsrc & _ & Hs & _).
      rewrite Hs. eexists _, _.
      split; [|split; [|repeat split]]; lia.
    + rewrite (optimize_image_raise _ _ _ _ _ _ _ _ Hb).
      destruct Hbody as (cs & (_ & Hs & _) & _). simpl. by rewrite Hs.
  - intros o n s Hin. split; [|reflexivity]. unfold add_steps in Hin.
    repeat (apply elem_of_cons in Hin as [->|Hin]; [simpl; lia|]).
    by apply elem_of_nil in Hin.
Qed.

Lemma C4_counters_witness :
  let st := worker_loop Example.calm Example.photos 80 false 1
              [Example.nested; Example.broken] (start_state Example.tree) in
  optimized_files (stats st) ≤ total_files (stats st)
  ∧ total_files (stats st) = 1.
Proof.
  intros st.
  assert (reachable Example.calm Example.photos 80 false st) as Hreach
    by (apply worker_loop_reachable, reach_start; reflexivity).
  destruct (C4_counters _ _ _ _ _ Hreach) as ((Hle & _) & _).
  split; [exact Hle|vm_compute; reflexivity].
Defined.

(** Every save of a file goes into [dest_dir]. *)
Lemma saves_go_to_dest_dir w src dest_dir quality convert st cs p kw :
  history (optimize_image w src dest_dir quality convert st) = history st ++ cs →
  CallSave p kw ∈ cs →
  Path.parent p = dest_dir.
Proof.
  intros Hcs Hin.
  destruct (save_calls_spec _ _ _ _ _ _ _ _ _ Hcs Hin) as (im & _ & -> & _).
  unfold final_dest. case_bool_decide.
  - by rewrite NamingFacts.dup_of_parent, NamingFacts.planned_dest_parent.
  - apply NamingFacts.planned_dest_parent.
Qed.

(** C1 on a source folder with a picture in a subfolder and no
    destination folder: the picture is found by the walk, and its
    optimized copy is written into the source folder, not into the
    subfolder the picture is in. *)
Theorem C1_nested_file_written_to_source_root :
  let files := walk_images Example.tree Example.photos in
  let st' := worker Example.calm Example.in_place files
               (start_state Example.tree) in
  Example.nested ∈ files
  ∧ Path.parent Example.nested = ["photos"; "sub"]
  ∧ fs st' !! ["photos"; "a-2x1-e8975c42.jpg"]
    = Some (mkFile 30000 (Some (strip_exif Example.photo)))
  ∧ fs st' !! ["photos"; "sub"; "a-2x1-e8975c42.jpg"] = None
  ∧ total_files (stats st') = 1
  ∧ ∀ p kw, CallSave p kw ∈ history st' → Path.parent p = ["photos"].
Proof.
  split; [in_computed_list|]. split; [reflexivity|].
  split; [vm_compute; reflexivity|]. split; [vm_compute; reflexivity|].
  split; [vm_compute; reflexivity|].
  intros p kw Hin. vm_compute in Hin.
  repeat (apply elem_of_cons in Hin as [Hin|Hin];
          [try discriminate; try (by injection Hin as -> _)|]).
  by apply elem_of_nil in Hin.
Qed.

(** In a pass that completes, oxipng is called exactly when the file
    written ends in [.png] and the conversion is off. *)
Lemma oxipng_called_iff files src dest_dir quality convert im :
  let plan := save_plan (PyStr.lower (Path.suffix src)) quality convert in
  let dest := final_dest files (planned_dest src dest_dir im plan.1) in
  (∃ p, CallOxipng p ∈ expected_calls files src dest_dir quality convert im)
  ↔ PyStr.lower (Path.suffix dest) = ".png" ∧ convert = false.
Proof.
  intros plan dest. unfold expected_calls. fold plan dest.
  assert (oxipng_wanted dest convert = true
          ↔ PyStr.lower (Path.suffix dest) = ".png" ∧ convert = false) as Hw.
  { unfold oxipng_wanted. rewrite andb_true_iff, bool_decide_eq_true.
    destruct convert; simpl; split; intros [? ?]; done. }
  rewrite <- Hw. destruct (oxipng_wanted dest convert); split; try done.
  - intros _. exists dest. do 5 apply list_elem_of_further. apply list_elem_of_here.
  - intros [p Hin]. simpl in Hin.
    repeat (apply elem_of_cons in Hin as [Hin|Hin]; [discriminate|]).
    by apply elem_of_nil in Hin.
Qed.

(** A missing oxipng, and an oxipng that exits with an error, leave the
    outcome of the file alone. *)
Lemma oxipng_absent_or_failing_tolerated w p st e :
  fault w (history st) (CallOxipng p) = Some e →
  e = FileNotFoundError ∨ e = CalledProcessError →
  call_oxipng w p st = (Ok tt, record (CallOxipng p) st).
Proof.
  intros Hf He. unfold call_oxipng, run_oxipng, prim. rewrite Hf.
  by destruct He as [-> | ->].
Qed.

(** C7 on a PNG kept as PNG, with an oxipng that is on the path but may
    not be executed: the output has been written, oxipng is called, its
    [PermissionError] leaves [call_oxipng], and the file is listed in
    [failures] instead of being counted. *)
Theorem C7_oxipng_permission_error_fails_the_file :
  let st' := optimize_image Example.oxipng_denied Example.icon Example.photos
               80 false (start_state Example.png_tree) in
  CallOxipng ["photos"; "icon-2x1-e8975c42.png"] ∈ history st'
  ∧ fs st' !! ["photos"; "icon-2x1-e8975c42.png"]
    = Some (mkFile 30000 (Some (strip_exif Example.photo)))
  ∧ stats st' = mkStats 0 0 0 0 ["/photos/icon.png"]
  ∧ log_queue st'
    = [LogLine (LogError "/photos/icon.png"
                  "[Errno 13] Permission denied: 'oxipng'")]
  ∧ stats (optimize_image Example.oxipng_absent Example.icon Example.photos
             80 false (start_state Example.png_tree))
    = mkStats 1 1 900 30000 [].
Proof.
  split; [in_computed_list|]. repeat split; vm_compute; reflexivity.
Qed.

(** * Further properties of the code *)

(** ** What a pass does to the files *)

Section Effects.
Context (w : World) (src d : Path.t) (q : Z) (c : bool).

(** A pass either stops at the save or before it and leaves the files as
    they were, or gets past the save and leaves one file changed: the
    destination. *)
Lemma measure_fs dest st :
  fs ((original_size ← stat_size w src;
       new_size ← stat_size w dest;
       stats_add original_size new_size;;
       log_put (LogOptimized (Path.name src) (Path.name dest)
                  original_size new_size)) st).2
  = fs st.
Proof.
  unfold mbind, M_bind, bind.
  pose proof (stat_size_spec w src st) as H1.
  destruct (stat_size w src st) as [[o|e] st1]; [|apply H1].
  destruct H1 as (_ & F1 & _).
  pose proof (stat_size_spec w dest st1) as H2.
  destruct (stat_size w dest st1) as [[n|e] st2];
    [|simpl; destruct H2 as (_ & -> & _); done].
  destruct H2 as (_ & F2 & _). simpl. by rewrite F2.
Qed.

Lemma optimize_body_effects st :
  let plan := save_plan (PyStr.lower (Path.suffix src)) q c in
  match optimize_body w src d q c st with
  | (r, st') =>
  ∃ cs,
    history st' = history st ++ cs
    ∧ ((cs = [CallOpen src] ∧ fs st' = fs st ∧ r ≠ Ok tt)
       ∨ ∃ im,
           source_image (fs st) src = Some im
           ∧ cs `prefix_of` expected_calls (fs st) src d q c im
           ∧ let dest := final_dest (fs st) (planned_dest src d im plan.1) in
             ((cs `prefix_of` calls_until_save (fs st) src d q c im
               ∧ fs st' = fs st ∧ r ≠ Ok tt)
              ∨ (calls_until_save (fs st) src d q c im `prefix_of` cs
                 ∧ ∃ cp : bool,
                     (cp = true → oxipng_wanted dest c = true)
                     ∧ fs st' = <[dest := written_file w im dest plan.2 cp]> (fs st))))
  end.
Proof.
  intros plan. unfold optimize_body, mbind, M_bind, bind.
  pose proof (image_open_spec w src st) as H1.
  destruct (image_open w src st) as [[im0|e] st1].
  2:{ exists [CallOpen src]. split; [apply H1|]. left.
      split; [done|]. split; [apply H1|done]. }
  destruct H1 as (Q1 & F1 & Him0).
  assert (source_image (fs st) src = Some (strip_exif im0)) as Him
    by (unfold source_image; by rewrite Him0).
  assert (is_Some (fs st !! src)) as Hsrc
    by (destruct (fs st !! src); [by eexists|done]).
  unfold expected_calls, calls_until_save. fold plan.
  destruct plan as [out_ext kw] eqn:Hplan. simpl fst. simpl snd. clear Hplan plan.
  pose proof (strip_exif_of_spec w src im0 st1) as H2.
  destruct (strip_exif_of w src im0 st1) as [[im|e] st2].
  2:{ destruct H2 as (Q2 & F2 & _).
      eexists. split; [by apply (quiet_trans _ _ _ _ _ Q1 Q2)|].
      right. exists (strip_exif im0). split; [done|]. split; [by eexists|].
      left. split; [by eexists|]. split; [by rewrite F2, F1|done]. }
  destruct H2 as (Q2 & F2 & ->).
  pose proof (quiet_trans _ _ _ _ _ Q1 Q2) as Q12. clear Q1 Q2.
  set (p := planned_dest src d (strip_exif im0) out_ext).
  pose proof (path_exists_spec w p st2) as H3.
  destruct (path_exists w p st2) as [[taken|e] st3].
  2:{ destruct H3 as (Q3 & F3 & _).
      eexists. split; [by apply (quiet_trans _ _ _ _ _ Q12 Q3)|].
      right. exists (strip_exif im0). split; [done|]. split; [by eexists|].
      left. split; [by eexists|]. split; [by rewrite F3, F2, F1|done]. }
  destruct H3 as (Q3 & F3 & ->). rewrite F2, F1.
  fold (final_dest (fs st) p). set (dest := final_dest (fs st) p).
  pose proof (quiet_trans _ _ _ _ _ Q12 Q3) as Q123. clear Q12 Q3.
  pose proof (mkdir_spec w (Path.parent dest) st3) as H4.
  destruct (mkdir w (Path.parent dest) st3) as [[[]|e] st4].
  2:{ destruct H4 as (Q4 & F4 & _).
      eexists. split; [by apply (quiet_trans _ _ _ _ _ Q123 Q4)|].
      right. exists (strip_exif im0). split; [done|]. fold p. fold dest.
      split; [by eexists|].
      left. split; [by eexists|]. split; [by rewrite F4, F3, F2, F1|done]. }
  destruct H4 as (Q4 & F4).
  pose proof (quiet_trans _ _ _ _ _ Q123 Q4) as Q1234. clear Q123 Q4.
  pose proof (image_save_spec w (strip_exif im0) dest kw st4) as H5.
  destruct (image_save w (strip_exif im0) dest kw st4) as [[[]|e] st5].
  2:{ destruct H5 as (Q5 & F5 & _).
      eexists. split; [by apply (quiet_trans _ _ _ _ _ Q1234 Q5)|].
      right. exists (strip_exif im0). split; [done|]. fold p. fold dest.
      split; [by eexists|].
      left. split; [by eexists|]. split; [by rewrite F5, F4, F3, F2, F1|done]. }
  destruct H5 as (Q5 & F5). rewrite F4, F3, F2, F1 in F5.
  pose proof (quiet_trans _ _ _ _ _ Q1234 Q5) as Q15. clear Q1234 Q5.
  fold (oxipng_wanted dest c).
  pose proof (compress_step_spec w c dest (encode w (strip_exif im0) dest kw) st5)
    as H6.
  rewrite F5, lookup_insert_eq in H6. specialize (H6 eq_refl).
  destruct ((if oxipng_wanted dest c then call_oxipng w dest else mret tt) st5)
    as [[[]|e] st6].
  2:{ destruct H6 as (Hwant & Q6 & F6 & _).
      eexists. split; [by apply (quiet_trans _ _ _ _ _ Q15 Q6)|].
      right. exists (strip_exif im0). split; [done|]. fold p. fold dest.
      rewrite Hwant. split; [by eexists|].
      right. split; [by eexists|]. exists false.
      split; [done|]. by rewrite F6. }
  destruct H6 as (compressed & Q6 & Hcomp & F6).
  rewrite insert_insert_eq in F6.
  pose proof (quiet_trans _ _ _ _ _ Q15 Q6) as Q16. clear Q15 Q6.
  assert (is_Some (fs st6 !! src)) as Hsrc6.
  { rewrite F6. destruct (decide (dest = src)) as [->|Hne].
    - rewrite lookup_insert_eq. by eexists.
    - by rewrite lookup_insert_ne. }
  pose proof (measure_spec w src dest _ st6 Hsrc6
                ltac:(by rewrite F6, lookup_insert_eq)) as H7.
  pose proof (measure_fs dest st6) as F7.
  unfold mbind, M_bind, bind in H7, F7.
  match type of H7 with match ?x with _ => _ end =>
    destruct x as [[[]|e] st7] end; simpl in F7.
  - destruct H7 as (fsrc & _ & Hh & _). destruct Q16 as (Hh6 & _).
    eexists. split; [rewrite Hh, Hh6; by rewrite <- !app_assoc|].
    right. exists (strip_exif im0). split; [done|]. fold p. fold dest.
    split; [by exists []; rewrite app_nil_r|].
    right. split; [by eexists|]. exists compressed.
    split; [done|]. by rewrite F7, F6.
  - destruct H7 as (cs & Q7 & [k Hk] & _).
    eexists. split; [by apply (quiet_trans _ _ _ _ _ Q16 Q7)|].
    right. exists (strip_exif im0). split; [done|]. fold p. fold dest.
    split; [exists k; rewrite Hk; by rewrite <- !app_assoc|].
    right. split; [eexists; by rewrite <- !app_assoc|]. exists compressed.
    split; [done|]. by rewrite F7, F6.
Qed.

End Effects.

(** ** The scan *)

Lemma elem_of_walk_images (files : gmap Path.t file) (folder p : Path.t) :
  p ∈ walk_images files folder
  ↔ is_Some (files !! p)
    ∧ folder `prefix_of` p ∧ p ≠ folder
    ∧ PyStr.lower (Path.suffix p) ∈ SUPPORTED_EXTS.
Proof.
  unfold walk_images. rewrite list_elem_of_filter, list_elem_of_fmap. split.
  - intros (Hp & [k v] & -> & Hin). split; [|done].
    apply elem_of_map_to_list in Hin. by exists v.
  - intros ([v Hv] & Hp). split; [done|]. exists (p, v). split; [done|].
    by apply elem_of_map_to_list.
Qed.

(** A supported suffix is not empty, and the output extension planned
    for it is supported too. *)
Lemma supported_plan (sfx : string) (q : Z) (c : bool) :
  PyStr.lower sfx ∈ SUPPORTED_EXTS →
  sfx ≠ "" ∧ (save_plan (PyStr.lower sfx) q c).1 ∈ SUPPORTED_EXTS.
Proof.
  intros Hext. split.
  { intros ->. vm_compute in Hext.
    repeat (apply elem_of_cons in Hext as [Hext|Hext]; [discriminate|]).
    by apply elem_of_nil in Hext. }
  unfold SUPPORTED_EXTS in Hext |- *.
  repeat (apply elem_of_cons in Hext as [->|Hext];
          [destruct c;
           repeat first [apply list_elem_of_here|apply list_elem_of_further]|]).
  by apply elem_of_nil in Hext.
Qed.

(** X2.  Every file of the scan has a suffix and gets one of the three
    specialised plans: the plan always carries [optimize], and with it
    either a [quality] or compress level 9; the bare plan of an unknown
    suffix is never used for a scanned file. *)
Theorem X2_scanned_files_are_planned (files : gmap Path.t file)
    (folder p : Path.t) (quality : Z) (convert : bool) :
  p ∈ walk_images files folder →
  let plan := save_plan (PyStr.lower (Path.suffix p)) quality convert in
  Path.suffix p ≠ ""
  ∧ plan.1 ∈ SUPPORTED_EXTS
  ∧ plan.2 !! "optimize" = Some (KBool true)
  ∧ (plan.2 !! "quality" = Some (KInt quality)
     ∨ plan.2 !! "compress_level" = Some (KInt 9))
  ∧ plan.2 ≠ {[ "optimize" := KBool true ]}.
Proof.
  intros Hin plan.
  apply elem_of_walk_images in Hin as (_ & _ & _ & Hext).
  split.
  { intros H0. rewrite H0 in Hext. vm_compute in Hext.
    repeat (apply elem_of_cons in Hext as [Hext|Hext]; [discriminate|]).
    by apply elem_of_nil in Hext. }
  assert (plan.2 !! "optimize" = Some (KBool true)
          ∧ (plan.2 !! "quality" = Some (KInt quality)
             ∨ plan.2 !! "compress_level" = Some (KInt 9))
          ∧ plan.1 ∈ SUPPORTED_EXTS) as (Hopt & Hsetting & Hout).
  { subst plan. unfold SUPPORTED_EXTS in Hext |- *.
    repeat (apply elem_of_cons in Hext as [->|Hext];
            [destruct convert;
             (split; [reflexivity|]);
             (split; [first [by left|by right]|]);
             repeat first [apply list_elem_of_here|apply list_elem_of_further]|]).
    by apply elem_of_nil in Hext. }
  split; [done|]. split; [done|]. split; [done|].
  intros Hbare. rewrite Hbare in Hsetting.
  by destruct Hsetting as [Hs|Hs].
Qed.

Lemma X2_scanned_files_are_planned_witness :
  Path.suffix Example.nested ≠ "".
Proof.
  assert (Example.nested ∈ walk_images Example.tree Example.photos) as Hin
    by in_computed_list.
  exact (proj1 (X2_scanned_files_are_planned Example.tree Example.photos
                  Example.nested 80 false Hin)).
Defined.

(** ** The external compressor *)

(** X3.  [call_oxipng] raises exactly what the process call raised when
    that is neither [FileNotFoundError] nor [CalledProcessError]; it
    never touches the counters or the queue, makes one call, and changes
    no file but the one it is given. *)
Theorem X3_call_oxipng_behaviour (w : World) (png_path : Path.t) (st : State) :
  let r := call_oxipng w png_path st in
  (∀ e, r.1 = Raise e
        ↔ fault w (history st) (CallOxipng png_path) = Some e
          ∧ e ≠ FileNotFoundError ∧ e ≠ CalledProcessError)
  ∧ history r.2 = history st ++ [CallOxipng png_path]
  ∧ stats r.2 = stats st
  ∧ log_queue r.2 = log_queue st
  ∧ (∀ p, p ≠ png_path → fs r.2 !! p = fs st !! p)
  ∧ (is_Some (fs st !! png_path) → is_Some (fs r.2 !! png_path)).
Proof.
  intros r. subst r. unfold call_oxipng, run_oxipng, prim.
  assert (∀ (res : result unit) (o : option exn),
            (match res, o with
             | Raise e1, Some e2 =>
                 e1 = e2 ∧ e1 ≠ FileNotFoundError ∧ e1 ≠ CalledProcessError
             | Raise _, None => False
             | Ok _, Some e2 => e2 = FileNotFoundError ∨ e2 = CalledProcessError
             | Ok _, None => True
             end) →
            ∀ e, res = Raise e
                 ↔ o = Some e ∧ e ≠ FileNotFoundError ∧ e ≠ CalledProcessError)
    as Hiff.
  { intros [u|e1] [e2|] Hres e; split.
    - discriminate.
    - intros (He & Hn1 & Hn2). injection He as <-. by destruct Hres.
    - discriminate.
    - by intros [? _].
    - intros He. injection He as <-. by destruct Hres as (-> & ? & ?).
    - intros (He & _). injection He as <-. by destruct Hres as (-> & _).
    - done.
    - by intros [? _]. }
  destruct (fault w (history st) (CallOxipng png_path)) as [e0|] eqn:Hf.
  - destruct e0; simpl;
      (split; [apply Hiff; simpl; first [by repeat split|by left|by right]
              |by repeat split]).
  - simpl. destruct (fs st !! png_path) as [f|] eqn:Hp; simpl.
    + split; [by apply Hiff|]. repeat split; try done.
      * intros p Hne. by rewrite lookup_insert_ne.
      * intros _. rewrite lookup_insert_eq. by eexists.
    + split; [by apply Hiff|]. by repeat split.
Qed.

(** ** The summary figure *)

(** X4.  In every state of a run [percent_saved] is at most 100, and it is
    negative exactly when the optimized files are larger in total than
    the originals. *)
Theorem X4_percent_saved_bounds (w : World) (dest_dir : Path.t) (quality : Z)
    (convert : bool) (st : State) :
  reachable w dest_dir quality convert st →
  (percent_saved (stats st) <= 100)%Q
  ∧ ((percent_saved (stats st) < 0)%Q
     ↔ 0 < total_original_bytes (stats st) < total_optimized_bytes (stats st)).
Proof.
  intros Hreach.
  destruct (reachable_counters _ _ _ _ _ Hreach) as (_ & _ & Ho & Hn).
  unfold percent_saved.
  destruct (Z.eqb_spec (total_original_bytes (stats st)) 0) as [H0|Hne].
  - split; [done|]. split; [intros Hlt; by apply Qlt_irrefl in Hlt|lia].
  - set (o := total_original_bytes (stats st)) in *.
    set (n := total_optimized_bytes (stats st)) in *.
    assert (0 < o) as Hpos by lia.
    assert (0 < inject_Z o)%Q as HposQ
      by (change 0%Q with (inject_Z 0); rewrite <- Zlt_Qlt; exact Hpos).
    split.
    + apply Qle_shift_div_r; [done|].
      change 100%Q with (inject_Z 100). rewrite <- inject_Z_mult.
      rewrite <- Zle_Qle. nia.
    + split.
      * intros Hlt. split; [done|].
        apply Qlt_not_le in Hlt. destruct (Z_lt_le_dec o n) as [|Hle]; [done|].
        exfalso. apply Hlt. apply Qle_shift_div_l; [done|].
        rewrite Qmult_0_l. change 0%Q with (inject_Z 0).
        rewrite <- Zle_Qle. nia.
      * intros [_ Hlt]. apply Qlt_shift_div_r; [done|].
        rewrite Qmult_0_l. change 0%Q with (inject_Z 0).
        rewrite <- Zlt_Qlt. nia.
Qed.

Lemma X4_percent_saved_bounds_witness :
  (percent_saved (stats (worker_loop Example.calm Example.photos 80 false 1
                           [Example.nested; Example.broken]
                           (start_state Example.tree))) <= 100)%Q.
Proof.
  apply (X4_percent_saved_bounds Example.calm Example.photos 80 false).
  apply worker_loop_reachable, reach_start. reflexivity.
Defined.

(** ** What a pass writes, and what it leaves alone *)

(** A list that is the beginning of [l1 ++ x :: l2] and holds [x], which
    [l1] does not, goes at least as far as [x]. *)
Lemma prefix_reaches {A} (l1 l2 cs : list A) (x : A) :
  cs `prefix_of` l1 ++ x :: l2 → x ∈ cs → x ∉ l1 →
  ∃ rest, cs = l1 ++ x :: rest.
Proof.
  revert cs. induction l1 as [|a l1 IH]; intros cs Hpre Hin Hnot.
  - destruct cs as [|y cs]; [by apply elem_of_nil in Hin|].
    simpl in Hpre. apply prefix_cons_inv_1 in Hpre as ->. by exists cs.
  - destruct cs as [|y cs]; [by apply elem_of_nil in Hin|].
    simpl in Hpre. pose proof (prefix_cons_inv_1 _ _ _ _ Hpre) as ->.
    apply prefix_cons_inv_2 in Hpre.
    apply elem_of_cons in Hin as [->|Hin].
    { exfalso. apply Hnot. apply list_elem_of_here. }
    destruct (IH cs Hpre Hin) as [rest ->].
    { intros H. apply Hnot. by apply list_elem_of_further. }
    by exists rest.
Qed.

(** The effects of [optimize_image]: those of the [try] block. *)
Lemma optimize_image_effects w src d q c st :
  let plan := save_plan (PyStr.lower (Path.suffix src)) q c in
  let st' := optimize_image w src d q c st in
  ∃ cs,
    history st' = history st ++ cs
    ∧ ((cs = [CallOpen src] ∧ fs st' = fs st
        ∧ (optimize_body w src d q c st).1 ≠ Ok tt)
       ∨ ∃ im,
           source_image (fs st) src = Some im
           ∧ cs `prefix_of` expected_calls (fs st) src d q c im
           ∧ let dest := final_dest (fs st) (planned_dest src d im plan.1) in
             ((cs `prefix_of` calls_until_save (fs st) src d q c im
               ∧ fs st' = fs st ∧ (optimize_body w src d q c st).1 ≠ Ok tt)
              ∨ (calls_until_save (fs st) src d q c im `prefix_of` cs
                 ∧ ∃ cp : bool,
                     (cp = true → oxipng_wanted dest c = true)
                     ∧ fs st' = <[dest := written_file w im dest plan.2 cp]> (fs st)))).
Proof.
  intros plan st'. subst st'. rewrite optimize_image_history, optimize_image_fs.
  pose proof (optimize_body_effects w src d q c st) as H.
  by destruct (optimize_body w src d q c st) as [r st1].
Qed.

(** X5.  A pass changes at most one file, its destination; and a file
    that was there before the pass is changed only if it is the ["-dup"]
    variant of a computed destination that is taken too. *)
Theorem X5_only_the_destination_changes (w : World) (src dest_dir : Path.t)
    (quality : Z) (convert : bool) (st : State) (p' : Path.t) :
  fs (optimize_image w src dest_dir quality convert st) !! p' ≠ fs st !! p' →
  ∃ im,
    source_image (fs st) src = Some im
    ∧ let p := planned_dest src dest_dir im
                 (save_plan (PyStr.lower (Path.suffix src)) quality convert).1 in
      p' = final_dest (fs st) p
      ∧ (is_Some (fs st !! p') → is_Some (fs st !! p) ∧ p' = dup_of p).
Proof.
  intros Hdiff.
  destruct (optimize_image_effects w src dest_dir quality convert st)
    as (cs & _ & [(_ & Hfs & _)|(im & Him & _ & Hcase)]).
  { by rewrite Hfs in Hdiff. }
  exists im. split; [done|]. simpl in Hcase |- *.
  destruct Hcase as [(_ & Hfs & _)|(_ & cp & _ & Hfs)].
  { by rewrite Hfs in Hdiff. }
  rewrite Hfs in Hdiff.
  set (p := planned_dest src dest_dir im
              (save_plan (PyStr.lower (Path.suffix src)) quality convert).1) in *.
  destruct (decide (final_dest (fs st) p = p')) as [<-|Hne];
    [|by rewrite lookup_insert_ne in Hdiff].
  split; [done|]. unfold final_dest. case_bool_decide as Hp; [done|].
  intros Hex. by destruct Hp.
Qed.

Lemma X5_only_the_destination_changes_witness :
  Example.taken_dup = dup_of Example.planned.
Proof.
  assert (fs (optimize_image Example.calm Example.nested Example.out 80 false
                (start_state Example.crowded)) !! Example.taken_dup
          ≠ fs (start_state Example.crowded) !! Example.taken_dup) as Hdiff
    by (vm_compute; discriminate).
  destruct (X5_only_the_destination_changes _ _ _ _ _ _ _ Hdiff)
    as (im & Him & _ & Hdup).
  assert (source_image (fs (start_state Example.crowded)) Example.nested
          = Some (strip_exif Example.photo)) as Him'
    by (vm_compute; reflexivity).
  rewrite Him' in Him. injection Him as <-.
  apply Hdup. vm_compute. by eexists.
Defined.

(** X6.  A pass never writes over its own source: whatever happens, the
    source file is afterwards what it was before. *)
Theorem X6_source_is_left_alone (w : World) (src dest_dir : Path.t)
    (quality : Z) (convert : bool) (st : State) :
  Path.suffix src ≠ "" →
  fs (optimize_image w src dest_dir quality convert st) !! src = fs st !! src.
Proof.
  intros Hsfx.
  destruct (optimize_image_effects w src dest_dir quality convert st)
    as (cs & _ & [(_ & -> & _)|(im & Him & _ & Hcase)]); [done|].
  simpl in Hcase. destruct Hcase as [(_ & -> & _)|(_ & cp & _ & ->)]; [done|].
  apply lookup_insert_ne. by apply final_dest_ne_src.
Qed.

Lemma X6_source_is_left_alone_witness :
  fs (optimize_image Example.calm Example.nested Example.photos 80 false
        (start_state Example.tree)) !! Example.nested
  = fs (start_state Example.tree) !! Example.nested.
Proof.
  apply X6_source_is_left_alone. vm_compute. discriminate.
Defined.

(** X7.  A source that is missing, or that the image library cannot
    identify, costs one call, [Image.open], and nothing else: no folder
    is made, nothing is written, no counter moves; the path is appended
    to [failures]. *)
Theorem X7_unreadable_source_writes_nothing (w : World) (src dest_dir : Path.t)
    (quality : Z) (convert : bool) (st : State) :
  source_image (fs st) src = None →
  let st' := optimize_image w src dest_dir quality convert st in
  history st' = history st ++ [CallOpen src]
  ∧ fs st' = fs st
  ∧ stats st' = failures_append (stats st) (Path.str src)
  ∧ ∃ l, log_queue st' = log_queue st ++ [LogLine l] ∧ is_success l = false.
Proof.
  intros Hnone st'. subst st'.
  destruct (optimize_image_effects w src dest_dir quality convert st)
    as (cs & Hh & [(-> & Hfs & Hraise)|(im & Him & _)]);
    [|by rewrite Hnone in Him].
  split; [done|]. split; [done|].
  pose proof (optimize_body_spec w src dest_dir quality convert st) as H.
  destruct (optimize_body w src dest_dir quality convert st) as [[[]|e] st1] eqn:Hb;
    [done|].
  rewrite (optimize_image_raise _ _ _ _ _ _ _ _ Hb).
  destruct H as (cs & (_ & Hs & Hl) & _). simpl. rewrite Hs, Hl.
  split; [done|]. exists (failure_line src e). split; [done|]. by destruct e.
Qed.

Lemma X7_unreadable_source_writes_nothing_witness :
  fs (optimize_image Example.calm Example.broken Example.photos 80 false
        (start_state Example.tree))
  = fs (start_state Example.tree).
Proof.
  apply (X7_unreadable_source_writes_nothing Example.calm Example.broken
           Example.photos 80 false (start_state Example.tree)).
  vm_compute. reflexivity.
Defined.

(** X8.  After a pass that completes, the destination holds what the
    encoder made of the stripped image (passed through oxipng or not):
    an image with the mode, the size and the pixels of the decoded
    source, and with none of its metadata. *)
Theorem X8_destination_holds_the_stripped_image (w : World)
    (src dest_dir : Path.t) (quality : Z) (convert : bool) (st : State) :
  (optimize_body w src dest_dir quality convert st).1 = Ok tt →
  let plan := save_plan (PyStr.lower (Path.suffix src)) quality convert in
  let st' := optimize_image w src dest_dir quality convert st in
  ∃ f0 im0 cp,
    fs st !! src = Some f0 ∧ decoded f0 = Some im0
    ∧ let im := strip_exif im0 in
      let dest := final_dest (fs st) (planned_dest src dest_dir im plan.1) in
      info im = []
      ∧ mode im = mode im0 ∧ width im = width im0 ∧ height im = height im0
      ∧ tobytes im = tobytes im0
      ∧ fs st' !! dest
        = Some (if cp : bool
                then oxipng_output w dest (encode w im dest plan.2)
                else encode w im dest plan.2)
      ∧ (cp = true → PyStr.lower (Path.suffix dest) = ".png" ∧ convert = false).
Proof.
  intros Hok plan st'. subst st'. rewrite optimize_image_fs.
  pose proof (optimize_body_spec w src dest_dir quality convert st) as H.
  destruct (optimize_body w src dest_dir quality convert st) as [[[]|e] st1];
    [|done].
  destruct H as (im & cp & Him & _ & Hcp & Hfs & _).
  unfold source_image in Him.
  destruct (fs st !! src) as [f0|] eqn:Hsrc; [|done]. simpl in Him.
  destruct (decoded f0) as [im0|] eqn:Hdec; [|done]. injection Him as <-.
  exists f0, im0, cp. split; [done|]. split; [done|]. simpl.
  repeat (split; [done|]). fold plan in Hfs, Hcp. split.
  - rewrite Hfs, lookup_insert_eq. by destruct cp.
  - intros ->. specialize (Hcp eq_refl). unfold oxipng_wanted in Hcp.
    apply andb_true_iff in Hcp as [Hpng Hc].
    apply bool_decide_eq_true in Hpng. by destruct convert.
Qed.

Lemma X8_destination_holds_the_stripped_image_witness :
  ∃ f0 im0, Example.tree !! Example.nested = Some f0 ∧ decoded f0 = Some im0.
Proof.
  assert ((optimize_body Example.calm Example.nested Example.photos 80 false
             (start_state Example.tree)).1 = Ok tt) as Hok
    by (vm_compute; reflexivity).
  destruct (X8_destination_holds_the_stripped_image _ _ _ _ _ _ Hok)
    as (f0 & im0 & _ & Hsrc & Hdec & _).
  exists f0, im0. split; [exact Hsrc|exact Hdec].
Defined.

(** X9.  Whenever oxipng is called, the conversion is off, the path
    ends in [.png], it is the path this pass has just saved (the save
    is the call right before), and the source is a PNG. *)
Theorem X9_oxipng_only_after_saving_a_png (w : World) (src dest_dir : Path.t)
    (quality : Z) (convert : bool) (st : State) (cs : list call) (p : Path.t) :
  history (optimize_image w src dest_dir quality convert st) = history st ++ cs →
  CallOxipng p ∈ cs →
  convert = false
  ∧ PyStr.lower (Path.suffix p) = ".png"
  ∧ (Path.suffix src ≠ "" → PyStr.lower (Path.suffix src) = ".png")
  ∧ ∃ im rest,
      source_image (fs st) src = Some im
      ∧ p = final_dest (fs st)
              (planned_dest src dest_dir im
                 (save_plan (PyStr.lower (Path.suffix src)) quality convert).1)
      ∧ cs = calls_until_save (fs st) src dest_dir quality convert im
               ++ CallOxipng p :: rest
      ∧ last (calls_until_save (fs st) src dest_dir quality convert im)
        = Some (CallSave p
                  (save_plan (PyStr.lower (Path.suffix src)) quality convert).2).
Proof.
  intros Hcs Hin.
  destruct (optimize_image_effects w src dest_dir quality convert st)
    as (cs' & Hh & Hcase).
  rewrite Hh in Hcs. apply app_inv_head in Hcs. subst cs'.
  destruct Hcase as [(-> & _)|(im & Him & Hpre & _)].
  { apply list_elem_of_singleton in Hin. discriminate. }
  set (plan := save_plan (PyStr.lower (Path.suffix src)) quality convert) in *.
  set (dest := final_dest (fs st) (planned_dest src dest_dir im plan.1)) in *.
  assert (expected_calls (fs st) src dest_dir quality convert im
          = calls_until_save (fs st) src dest_dir quality convert im
              ++ (if oxipng_wanted dest convert then [CallOxipng dest] else [])
              ++ [CallStat src; CallStat dest]) as Hexp by reflexivity.
  assert (CallOxipng p ∉ calls_until_save (fs st) src dest_dir quality convert im)
    as Hnot.
  { unfold calls_until_save. intros H.
    repeat (apply elem_of_cons in H as [H|H]; [discriminate|]).
    by apply elem_of_nil in H. }
  assert (oxipng_wanted dest convert = true ∧ p = dest) as [Hwant ->].
  { destruct Hpre as [k Hk].
    assert (CallOxipng p ∈ expected_calls (fs st) src dest_dir quality convert im)
      as Hin' by (rewrite Hk; apply elem_of_app; by left).
    rewrite Hexp in Hin'. apply elem_of_app in Hin' as [Hin'|Hin']; [done|].
    destruct (oxipng_wanted dest convert); simpl in Hin';
      repeat (apply elem_of_cons in Hin' as [Hin'|Hin'];
              [try discriminate; try (by injection Hin' as ->)|]);
      by apply elem_of_nil in Hin'. }
  rewrite Hexp, Hwant in Hpre.
  destruct (prefix_reaches
              (calls_until_save (fs st) src dest_dir quality convert im)
              [CallStat src; CallStat dest] cs (CallOxipng dest)
              Hpre Hin Hnot) as [rest ->].
  unfold oxipng_wanted in Hwant. apply andb_true_iff in Hwant as [Hpng Hc].
  apply bool_decide_eq_true in Hpng.
  assert (convert = false) as Hconv by by destruct convert.
  split; [done|]. split; [done|]. split.
  - intros Hsfx.
    destruct (final_dest_name (fs st) src dest_dir im quality convert Hsfx)
      as (_ & Hsuffix).
    simpl in Hsuffix. fold plan dest in Hsuffix. rewrite Hsuffix in Hpng.
    destruct (NamingFacts.save_plan_ext (PyStr.lower (Path.suffix src))
                quality convert) as [Hsame|(_ & _ & Htrue)];
      [|by rewrite Hconv in Htrue].
    fold plan in Hsame. rewrite Hsame, lower_lower in Hpng. exact Hpng.
  - exists im, rest. by repeat split.
Qed.

Lemma X9_oxipng_only_after_saving_a_png_witness :
  PyStr.lower (Path.suffix ["photos"; "icon-2x1-e8975c42.png"]) = ".png".
Proof.
  refine (proj1 (proj2
            (X9_oxipng_only_after_saving_a_png Example.calm Example.icon
               Example.photos 80 false (start_state Example.png_tree)
               (history (optimize_image Example.calm Example.icon Example.photos
                           80 false (start_state Example.png_tree)))
               ["photos"; "icon-2x1-e8975c42.png"] _ _))).
  - reflexivity.
  - in_computed_list.
Defined.

(** X10.  A pass that raises after the save (in oxipng, or when the
    sizes are read) leaves the file it has written where it is, although
    the source is listed in [failures] and no counter moves. *)
Theorem X10_late_failure_keeps_the_output (w : World) (src dest_dir : Path.t)
    (quality : Z) (convert : bool) (st : State) (cs : list call) (p : Path.t) :
  (optimize_body w src dest_dir quality convert st).1 ≠ Ok tt →
  history (optimize_image w src dest_dir quality convert st) = history st ++ cs →
  CallOxipng p ∈ cs ∨ CallStat p ∈ cs →
  let st' := optimize_image w src dest_dir quality convert st in
  ∃ im,
    source_image (fs st) src = Some im
    ∧ is_Some (fs st' !! final_dest (fs st)
                 (planned_dest src dest_dir im
                    (save_plan (PyStr.lower (Path.suffix src)) quality convert).1))
    ∧ stats st' = failures_append (stats st) (Path.str src).
Proof.
  intros Hraise Hcs Hin st'. subst st'.
  destruct (optimize_image_effects w src dest_dir quality convert st)
    as (cs' & Hh & Hcase).
  rewrite Hh in Hcs. apply app_inv_head in Hcs. subst cs'.
  assert (stats (optimize_image w src dest_dir quality convert st)
          = failures_append (stats st) (Path.str src)) as Hstats.
  { pose proof (optimize_body_spec w src dest_dir quality convert st) as H.
    destruct (optimize_body w src dest_dir quality convert st)
      as [[[]|e] st1] eqn:Hb; [done|].
    rewrite (optimize_image_raise _ _ _ _ _ _ _ _ Hb).
    destruct H as (cs' & (_ & Hs & _) & _). simpl. by rewrite Hs. }
  destruct Hcase as [(-> & _)|(im & Him & _ & Hcase)].
  { destruct Hin as [Hin|Hin]; apply list_elem_of_singleton in Hin; discriminate. }
  exists im. split; [done|]. split; [|done]. simpl in Hcase.
  destruct Hcase as [([k Hk] & _)|(_ & cp & _ & ->)];
    [|rewrite lookup_insert_eq; by eexists].
  exfalso. unfold calls_until_save in Hk.
  assert (∀ x, x ∈ cs → x ∈ cs ++ k) as Hsub
    by (intros x Hx; apply elem_of_app; by left).
  destruct Hin as [Hin|Hin]; apply Hsub in Hin; rewrite <- Hk in Hin;
    repeat (apply elem_of_cons in Hin as [Hin|Hin]; [discriminate|]);
    by apply elem_of_nil in Hin.
Qed.

Lemma X10_late_failure_keeps_the_output_witness :
  stats (optimize_image Example.oxipng_denied Example.icon Example.photos 80
           false (start_state Example.png_tree))
  = failures_append (stats (start_state Example.png_tree))
      (Path.str Example.icon).
Proof.
  assert ((optimize_body Example.oxipng_denied Example.icon Example.photos 80
             false (start_state Example.png_tree)).1 ≠ Ok tt) as Hraise
    by (vm_compute; discriminate).
  destruct (X10_late_failure_keeps_the_output Example.oxipng_denied Example.icon
              Example.photos 80 false (start_state Example.png_tree)
              (history (optimize_image Example.oxipng_denied Example.icon
                          Example.photos 80 false (start_state Example.png_tree)))
              ["photos"; "icon-2x1-e8975c42.png"] Hraise eq_refl)
    as (im & _ & _ & Hstats).
  - left. in_computed_list.
  - exact Hstats.
Defined.

(** ** The sizes that are counted *)

(** X11.  The two sizes that a completed pass counts and logs are read
    after oxipng has run: the size of the source, which the pass has not
    touched, and the size of the file that is at the destination when
    the pass ends. *)
Theorem X11_sizes_are_those_on_disk (w : World) (src dest_dir : Path.t)
    (quality : Z) (convert : bool) (st : State) :
  (optimize_body w src dest_dir quality convert st).1 = Ok tt →
  Path.suffix src ≠ "" →
  let plan := save_plan (PyStr.lower (Path.suffix src)) quality convert in
  let st' := optimize_image w src dest_dir quality convert st in
  ∃ im fsrc fdest,
    source_image (fs st) src = Some im
    ∧ let dest := final_dest (fs st) (planned_dest src dest_dir im plan.1) in
      fs st !! src = Some fsrc
      ∧ fs st' !! dest = Some fdest
      ∧ stats st'
        = add (stats st) (Z.of_N (st_size fsrc)) (Z.of_N (st_size fdest))
      ∧ log_queue st'
        = log_queue st ++
            [LogLine (LogOptimized (Path.name src) (Path.name dest)
                        (Z.of_N (st_size fsrc)) (Z.of_N (st_size fdest)))].
Proof.
  intros Hok Hsfx plan st'. subst st'.
  pose proof (optimize_body_spec w src dest_dir quality convert st) as H.
  destruct (optimize_body w src dest_dir quality convert st)
    as [[[]|e] st1] eqn:Hb; [|done].
  rewrite (optimize_image_ok _ _ _ _ _ _ _ _ Hb).
  destruct H as (im & cp & Him & _ & _ & Hfs & fsrc & Hsrc & Hs & Hl).
  fold plan in Hfs, Hs, Hl.
  exists im, fsrc,
    (written_file w im
       (final_dest (fs st) (planned_dest src dest_dir im plan.1)) plan.2 cp).
  split; [done|]. simpl. split.
  { rewrite Hfs, lookup_insert_ne in Hsrc; [done|]. by apply final_dest_ne_src. }
  split; [by rewrite Hfs, lookup_insert_eq|]. by split.
Qed.

Lemma X11_sizes_are_those_on_disk_witness :
  ∃ fsrc, Example.tree !! Example.nested = Some fsrc.
Proof.
  assert ((optimize_body Example.calm Example.nested Example.photos 80 false
             (start_state Example.tree)).1 = Ok tt) as Hok
    by (vm_compute; reflexivity).
  assert (Path.suffix Example.nested ≠ "") as Hsfx
    by (vm_compute; discriminate).
  destruct (X11_sizes_are_those_on_disk _ _ _ _ _ _ Hok Hsfx)
    as (im & fsrc & fdest & _ & Hsrc & _).
  exists fsrc. exact Hsrc.
Defined.

(** ** The run as a whole *)

(** The destination is a file directly in [dest_dir]. *)
Lemma final_dest_div files src d im ext :
  ∃ nm, final_dest files (planned_dest src d im ext) = Path.div d nm.
Proof.
  unfold final_dest. case_bool_decide.
  - unfold dup_of, Path.with_stem, Path.with_name.
    rewrite NamingFacts.planned_dest_parent. by eexists.
  - unfold planned_dest. case_bool_decide; [|by eexists].
    unfold Path.with_suffix, Path.with_name.
    rewrite PathFacts.parent_div. by eexists.
Qed.

(** What one pass leaves of the files: each is as before, or it is the
    destination, a file of [dest_dir] with the planned extension. *)
Lemma optimize_image_changes w src d q c st p :
  fs (optimize_image w src d q c st) !! p = fs st !! p
  ∨ ((∃ nm, p = Path.div d nm)
     ∧ (Path.suffix src ≠ "" →
        Path.suffix p = (save_plan (PyStr.lower (Path.suffix src)) q c).1)).
Proof.
  destruct (optimize_image_effects w src d q c st)
    as (cs & _ & [(_ & -> & _)|(im & Him & _ & Hcase)]); [by left|].
  simpl in Hcase. destruct Hcase as [(_ & -> & _)|(_ & cp & _ & ->)]; [by left|].
  match goal with
  | |- <[?dest := _]> _ !! _ = _ ∨ _ =>
      destruct (decide (dest = p)) as [<-|Hne]
  end; [|left; by rewrite lookup_insert_ne].
  right. split; [apply final_dest_div|].
  intros Hsfx. by destruct (final_dest_name (fs st) src d im q c Hsfx) as (_ & ?).
Qed.

(** No pass removes a file. *)
Lemma optimize_image_keeps w src d q c st p :
  is_Some (fs st !! p) → is_Some (fs (optimize_image w src d q c st) !! p).
Proof.
  intros Hp.
  destruct (optimize_image_effects w src d q c st)
    as (cs & _ & [(_ & -> & _)|(im & Him & _ & Hcase)]); [done|].
  simpl in Hcase. destruct Hcase as [(_ & -> & _)|(_ & cp & _ & ->)]; [done|].
  match goal with
  | |- is_Some (<[?dest := _]> _ !! _) =>
      destruct (decide (dest = p)) as [<-|Hne]
  end.
  - rewrite lookup_insert_eq. by eexists.
  - by rewrite lookup_insert_ne.
Qed.

Lemma worker_loop_keeps w d q c files : ∀ idx st p,
  is_Some (fs st !! p) →
  is_Some (fs (worker_loop w d q c idx files st) !! p).
Proof.
  induction files as [|f files IH]; intros idx st p Hp; simpl; [done|].
  apply IH. simpl. by apply optimize_image_keeps.
Qed.

Lemma worker_loop_changes w d q c files : ∀ idx st p,
  (∀ f, f ∈ files → PyStr.lower (Path.suffix f) ∈ SUPPORTED_EXTS) →
  fs (worker_loop w d q c idx files st) !! p = fs st !! p
  ∨ ((∃ nm, p = Path.div d nm) ∧ Path.suffix p ∈ SUPPORTED_EXTS).
Proof.
  induction files as [|f files IH]; intros idx st p Hsup; simpl; [by left|].
  destruct (IH (idx + 1) (put (Progress idx) (optimize_image w f d q c st)) p)
    as [Hrest|Hgood]; [|simpl in Hrest|by right].
  { intros f' Hf'. apply Hsup. by apply list_elem_of_further. }
  destruct (optimize_image_changes w f d q c st p) as [Hfirst|(Hdiv & Hsuffix)];
    [left; by rewrite Hrest|].
  right. split; [done|].
  destruct (supported_plan (Path.suffix f) q c) as (Hsfx & Hplan).
  { apply Hsup. apply list_elem_of_here. }
  by rewrite (Hsuffix Hsfx).
Qed.

(** What [_start] hands to the worker. *)
Lemma start_WorkerStarted disk win app files stats0 g0 :
  start disk win = WorkerStarted app files stats0 g0 →
  ∃ folder,
    win_src_folder win = Some folder
    ∧ files = walk_images disk folder ∧ files ≠ []
    ∧ app = mkApp folder (win_dest_folder win) (win_quality win) (win_png win)
    ∧ stats0 = Stats_init
    ∧ g0 = mkWidgets (Z.of_nat (length files)) 0 [] NoSummary.
Proof.
  unfold start. intros Hstart.
  destruct (win_src_folder win) as [folder|]; [|done].
  exists folder. split; [done|].
  destruct (walk_images disk folder) as [|f files'] eqn:Hfiles; [done|].
  cbv beta iota zeta in Hstart. injection Hstart as <- <- <- <-.
  by repeat split.
Qed.

Lemma run_Some w disk win st g :
  run w disk win = Some (st, g) →
  ∃ app files stats0 g0,
    start disk win = WorkerStarted app files stats0 g0
    ∧ st = worker w app files (mkState disk stats0 [] [])
    ∧ g = drain_log_queue (log_queue st) g0.
Proof.
  unfold run. intros Hrun.
  destruct (start disk win) as [| |app files stats0 g0]; [done|done|].
  injection Hrun as <- <-. by exists app, files, stats0, g0.
Qed.

(** The files of a run: each is as on the disk at the start, or it is a
    file of the destination folder with a supported suffix. *)
Lemma run_changes w disk win st g p :
  run w disk win = Some (st, g) →
  ∃ folder,
    win_src_folder win = Some folder
    ∧ (is_Some (disk !! p) → is_Some (fs st !! p))
    ∧ (fs st !! p = disk !! p
       ∨ ((∃ nm, p = Path.div (default folder (win_dest_folder win)) nm)
          ∧ Path.suffix p ∈ SUPPORTED_EXTS)).
Proof.
  intros Hrun.
  destruct (run_Some _ _ _ _ _ Hrun) as (app & files & stats0 & g0 & Hstart & -> & _).
  destruct (start_WorkerStarted _ _ _ _ _ _ Hstart)
    as (folder & Hsrc & Hfiles & _ & -> & _ & _).
  exists folder. split; [done|]. unfold worker. simpl. split.
  - intros Hp. apply worker_loop_keeps. exact Hp.
  - apply (worker_loop_changes w (default folder (win_dest_folder win))
             (win_quality win) (win_png win) files 1
             (mkState disk stats0 [] []) p).
    intros f Hf. rewrite Hfiles in Hf.
    by apply elem_of_walk_images in Hf as (_ & _ & _ & ?).
Qed.

(** X12.  Every file that a run creates or changes lies directly in the
    destination folder (the source folder when none is chosen) and has
    one of the four supported suffixes; nothing else on the disk is
    touched. *)
Theorem X12_a_run_writes_into_the_destination_folder (w : World)
    (disk : gmap Path.t file) (win : Window) (st : State) (g : Widgets)
    (p : Path.t) :
  run w disk win = Some (st, g) →
  fs st !! p ≠ disk !! p →
  ∃ folder nm,
    win_src_folder win = Some folder
    ∧ p = Path.div (default folder (win_dest_folder win)) nm
    ∧ Path.suffix p ∈ SUPPORTED_EXTS
    ∧ is_Some (fs st !! p).
Proof.
  intros Hrun Hdiff.
  destruct (run_changes w disk win st g p Hrun)
    as (folder & Hsrc & Hkeep & [Hsame|([nm Hnm] & Hsuffix)]); [done|].
  exists folder, nm. split; [done|]. split; [done|]. split; [done|].
  destruct (disk !! p) as [f|] eqn:Hp; [apply Hkeep; by eexists|].
  destruct (fs st !! p) as [f|]; [by eexists|done].
Qed.

Lemma X12_a_run_writes_into_the_destination_folder_witness :
  ∃ nm, Example.written = Path.div Example.photos nm.
Proof.
  assert (run Example.calm Example.tree Example.window
          = Some (Example.after, Example.shown)) as Hrun
    by (vm_compute; reflexivity).
  assert (fs Example.after !! Example.written
          ≠ Example.tree !! Example.written) as Hdiff
    by (vm_compute; discriminate).
  destruct (X12_a_run_writes_into_the_destination_folder _ _ _ _ _ _ Hrun Hdiff)
    as (folder & nm & Hsrc & Hp & _).
  injection Hsrc as <-. exists nm. exact Hp.
Defined.

(** X13.  After a run without a destination folder, the next scan of the
    source folder finds the old sources and, with them, every file the
    run has written. *)
Theorem X13_in_place_outputs_are_scanned_next (w : World)
    (disk : gmap Path.t file) (win : Window) (st : State) (g : Widgets) :
  run w disk win = Some (st, g) →
  win_dest_folder win = None →
  ∃ folder,
    win_src_folder win = Some folder
    ∧ (∀ p, p ∈ walk_images disk folder → p ∈ walk_images (fs st) folder)
    ∧ (∀ p, fs st !! p ≠ disk !! p → p ∈ walk_images (fs st) folder).
Proof.
  intros Hrun Hdest.
  destruct (run_changes w disk win st g [] Hrun) as (folder & Hsrc & _).
  exists folder. split; [done|]. split.
  - intros p Hin. apply elem_of_walk_images in Hin as (Hp & Hrest).
    apply elem_of_walk_images. split; [|done].
    destruct (run_changes w disk win st g p Hrun) as (folder' & Hsrc' & Hkeep & _).
    by apply Hkeep.
  - intros p Hdiff.
    destruct (run_changes w disk win st g p Hrun)
      as (folder' & Hsrc' & Hkeep & [Hsame|([nm Hnm] & Hsuffix)]); [done|].
    rewrite Hsrc in Hsrc'. injection Hsrc' as <-.
    rewrite Hdest in Hnm. simpl in Hnm.
    apply elem_of_walk_images. split; [|split; [|split]].
    + destruct (disk !! p) as [f|] eqn:Hp; [apply Hkeep; by eexists|].
      destruct (fs st !! p) as [f|]; [by eexists|done].
    + rewrite Hnm. by exists [nm].
    + intros Heq. rewrite Heq in Hnm. apply (f_equal length) in Hnm.
      unfold Path.div in Hnm. rewrite length_app in Hnm. simpl in Hnm. lia.
    + unfold SUPPORTED_EXTS in Hsuffix |- *.
      repeat (apply elem_of_cons in Hsuffix as [->|Hsuffix];
              [repeat first [apply list_elem_of_here|apply list_elem_of_further]|]).
      by apply elem_of_nil in Hsuffix.
Qed.

Lemma X13_in_place_outputs_are_scanned_next_witness :
  Example.written ∈ walk_images (fs Example.after) Example.photos.
Proof.
  assert (run Example.calm Example.tree Example.window
          = Some (Example.after, Example.shown)) as Hrun
    by (vm_compute; reflexivity).
  assert (fs Example.after !! Example.written
          ≠ Example.tree !! Example.written) as Hdiff
    by (vm_compute; discriminate).
  destruct (X13_in_place_outputs_are_scanned_next _ _ _ _ _ Hrun eq_refl)
    as (folder & Hsrc & _ & Hnew).
  injection Hsrc as <-. exact (Hnew Example.written Hdiff).
Defined.

(** ** The window during and after a run *)

Lemma drain_log_queue_app q1 q2 g :
  drain_log_queue (q1 ++ q2) g = drain_log_queue q2 (drain_log_queue q1 g).
Proof. apply fold_left_app. Qed.

(** The events of the files, taken from a bar that stands at [idx - 1]. *)
Lemma drain_run_events lines : ∀ idx g,
  progress_value g = idx - 1 →
  drain_log_queue (run_events idx lines) g
  = mkWidgets (progress_maximum g) (idx - 1 + Z.of_nat (length lines))
              (log_txt g ++ lines) (summary_var g).
Proof.
  induction lines as [|l lines IH]; intros idx g Hv.
  - simpl. rewrite app_nil_r, Z.add_0_r, <- Hv. by destruct g.
  - change (drain_log_queue (run_events idx (l :: lines)) g)
      with (drain_log_queue (run_events (idx + 1) lines)
              (drain_item (drain_item g (LogLine l)) (Progress idx))).
    rewrite IH by (simpl; lia). simpl. f_equal; [lia|by rewrite <- app_assoc].
Qed.

Lemma drain_run_events_prefix lines : ∀ idx q g,
  q `prefix_of` run_events idx lines →
  progress_value g = idx - 1 →
  ∃ shown,
    shown `prefix_of` lines
    ∧ progress_maximum (drain_log_queue q g) = progress_maximum g
    ∧ summary_var (drain_log_queue q g) = summary_var g
    ∧ log_txt (drain_log_queue q g) = log_txt g ++ shown
    ∧ idx - 1 ≤ progress_value (drain_log_queue q g)
      ≤ idx - 1 + Z.of_nat (length lines)
    ∧ (Z.of_nat (length shown) = progress_value (drain_log_queue q g) - (idx - 1)
       ∨ Z.of_nat (length shown)
         = progress_value (drain_log_queue q g) - (idx - 1) + 1).
Proof.
  induction lines as [|l lines IH]; intros idx q g Hpre Hv.
  - simpl in Hpre. apply prefix_nil_inv in Hpre as ->. exists [].
    simpl. rewrite app_nil_r. repeat split; first [done|lia].
  - destruct q as [|x [|y q]].
    + exists []. simpl. rewrite app_nil_r.
      repeat split; first [done|lia|apply prefix_nil].
    + simpl in Hpre. apply prefix_cons_inv_1 in Hpre as ->. exists [l].
      simpl. repeat split; first [done|lia|apply prefix_cons, prefix_nil].
    + simpl in Hpre. pose proof (prefix_cons_inv_1 _ _ _ _ Hpre) as ->.
      apply prefix_cons_inv_2 in Hpre.
      pose proof (prefix_cons_inv_1 _ _ _ _ Hpre) as ->.
      apply prefix_cons_inv_2 in Hpre.
      destruct (IH (idx + 1) q
                  (drain_item (drain_item g (LogLine l)) (Progress idx)) Hpre)
        as (shown & Hsh & Hmax & Hsum & Hlog & Hval & Hlen); [simpl; lia|].
      exists (l :: shown).
      change (drain_log_queue (LogLine l :: Progress idx :: q) g)
        with (drain_log_queue q
                (drain_item (drain_item g (LogLine l)) (Progress idx))).
      rewrite Hmax, Hsum, Hlog. simpl in Hval, Hlen |- *. rewrite <- app_assoc.
      split; [by apply prefix_cons|]. repeat split; first [done|lia].
Qed.

Lemma prefix_snoc {A} (q l : list A) (x : A) :
  q `prefix_of` l ++ [x] → q `prefix_of` l ∨ q = l ++ [x].
Proof.
  intros [k Hk]. destruct k as [|y k _] using rev_ind.
  - right. by rewrite app_nil_r in Hk.
  - left. rewrite app_assoc in Hk. apply app_inj_tail in Hk as [-> _].
    by exists k.
Qed.

(** The queue of a run: the events of the files, then ['DONE'] with the
    counters. *)
Lemma worker_queue w app files disk :
  let st := worker w app files (start_state disk) in
  ∃ lines,
    Forall2 line_about files lines
    ∧ log_queue st = run_events 1 lines ++ [Done (stats st)]
    ∧ failures (stats st) = Path.str <$> failed_of files lines
    ∧ optimized_files (stats st) = successes lines
    ∧ total_files (stats st) = successes lines.
Proof.
  intros st. subst st. unfold worker.
  destruct (worker_loop_spec w (default (src_folder app) (dest_folder app))
              (quality_var app) (png_var app) files 1 (start_state disk))
    as (lines & Hall & Hlog & Hfail & Hopt & Htot).
  exists lines. split; [done|]. simpl. rewrite Hlog, Hfail, Hopt, Htot.
  by repeat split.
Qed.

(** X15.  At every moment of a run (whatever part of the queue has been
    taken) the bar stands between 0 and its maximum, the number of files
    of the scan; the log box holds the lines of the files done, and of
    at most one more; the summary stays empty until the whole queue is
    taken. *)
Theorem X15_progress_bar_during_a_run (w : World) (disk : gmap Path.t file)
    (win : Window) (app : App) (files : list Path.t) (stats0 : Stats)
    (g0 : Widgets) (q : list event) :
  start disk win = WorkerStarted app files stats0 g0 →
  q `prefix_of` log_queue (worker w app files (mkState disk stats0 [] [])) →
  let g := drain_log_queue q g0 in
  progress_maximum g = Z.of_nat (length files)
  ∧ 0 ≤ progress_value g ≤ progress_maximum g
  ∧ (∃ lines,
       Forall2 line_about files lines ∧ log_txt g `prefix_of` lines
       ∧ (Z.of_nat (length (log_txt g)) = progress_value g
          ∨ Z.of_nat (length (log_txt g)) = progress_value g + 1))
  ∧ (summary_var g ≠ NoSummary
     → q = log_queue (worker w app files (mkState disk stats0 [] []))).
Proof.
  intros Hstart Hpre g. subst g.
  destruct (start_WorkerStarted _ _ _ _ _ _ Hstart)
    as (folder & _ & _ & _ & _ & -> & ->).
  destruct (worker_queue w app files disk) as (lines & Hall & Hq & _).
  change (mkState disk Stats_init [] []) with (start_state disk) in *.
  rewrite Hq in Hpre |- *.
  pose proof (Forall2_length _ _ _ Hall) as Hlen.
  apply prefix_snoc in Hpre as [Hpre| ->].
  - destruct (drain_run_events_prefix lines 1 q
                (mkWidgets (Z.of_nat (length files)) 0 [] NoSummary) Hpre eq_refl)
      as (shown & Hsh & -> & -> & -> & Hval & Hshown).
    simpl. split; [done|]. split; [lia|]. split; [|done].
    exists lines. split; [done|]. split; [done|].
    destruct Hshown; [left|right]; lia.
  - rewrite drain_log_queue_app, drain_run_events by done. simpl.
    split; [done|]. split; [lia|]. split; [|done].
    exists lines. split; [done|]. split; [done|]. left. lia.
Qed.

Lemma X15_progress_bar_during_a_run_witness :
  progress_maximum (drain_log_queue (log_queue Example.after) Example.cleared)
  = Z.of_nat (length Example.scanned).
Proof.
  assert (start Example.tree Example.window
          = WorkerStarted Example.chosen Example.scanned Stats_init
              Example.cleared) as Hstart
    by (vm_compute; reflexivity).
  assert (log_queue Example.after
            `prefix_of` log_queue (worker Example.calm Example.chosen
                                     Example.scanned
                                     (mkState Example.tree Stats_init [] [])))
    as Hpre by reflexivity.
  exact (proj1 (X15_progress_bar_during_a_run Example.calm Example.tree
                  Example.window Example.chosen Example.scanned Stats_init
                  Example.cleared (log_queue Example.after) Hstart Hpre)).
Defined.

(** X16.  When the queue of a run has been taken, the bar is full, the
    log box holds one line for each file of the scan, in the order of
    the scan, and nothing of an earlier run; the summary is that of the
    final counters, in which [optimized_files] equals [total_files] and
    which, with the length of [failures], account for every file. *)
Theorem X16_the_window_after_a_run (w : World) (disk : gmap Path.t file)
    (win : Window) (st : State) (g : Widgets) :
  run w disk win = Some (st, g) →
  ∃ folder,
    win_src_folder win = Some folder
    ∧ let files := walk_images disk folder in
      files ≠ []
      ∧ progress_maximum g = Z.of_nat (length files)
      ∧ progress_value g = Z.of_nat (length files)
      ∧ Forall2 line_about files (log_txt g)
      ∧ summary_var g = SummaryOf (stats st)
      ∧ optimized_files (stats st) = total_files (stats st)
      ∧ total_files (stats st) = successes (log_txt g)
      ∧ total_files (stats st) + Z.of_nat (length (failures (stats st)))
        = Z.of_nat (length files).
Proof.
  intros Hrun.
  destruct (run_Some _ _ _ _ _ Hrun)
    as (app & files & stats0 & g0 & Hstart & Hst & ->).
  destruct (start_WorkerStarted _ _ _ _ _ _ Hstart)
    as (folder & Hsrc & Hfiles & Hne & _ & -> & ->).
  change (mkState disk Stats_init [] []) with (start_state disk) in Hst.
  destruct (worker_queue w app files disk)
    as (lines & Hall & Hq & Hfail & Hopt & Htot).
  rewrite <- Hst in Hq, Hfail, Hopt, Htot.
  exists folder. split; [done|]. simpl. rewrite <- Hfiles.
  rewrite Hq, drain_log_queue_app, drain_run_events by done. simpl.
  pose proof (Forall2_length _ _ _ Hall) as Hlen.
  pose proof (failed_of_length files lines Hall) as Hcount.
  rewrite Hfail, length_fmap, Hopt, Htot.
  repeat split; try done; lia.
Qed.

Lemma X16_the_window_after_a_run_witness :
  summary_var Example.shown = SummaryOf (stats Example.after).
Proof.
  assert (run Example.calm Example.tree Example.window
          = Some (Example.after, Example.shown)) as Hrun
    by (vm_compute; reflexivity).
  destruct (X16_the_window_after_a_run _ _ _ _ _ Hrun)
    as (folder & _ & _ & _ & _ & _ & Hsummary & _).
  exact Hsummary.
Defined.

(** X17.  [_start] starts no run in exactly two cases: no source folder
    is chosen, or no file below it has a supported suffix. *)
Theorem X17_a_run_starts_iff (w : World) (disk : gmap Path.t file)
    (win : Window) :
  run w disk win = None
  ↔ win_src_folder win = None
    ∨ ∃ folder,
        win_src_folder win = Some folder
        ∧ ∀ p, is_Some (disk !! p) → folder `prefix_of` p → p ≠ folder →
               PyStr.lower (Path.suffix p) ∉ SUPPORTED_EXTS.
Proof.
  unfold run, start.
  destruct (win_src_folder win) as [folder|]; [|split; [by left|done]].
  destruct (walk_images disk folder) as [|f files] eqn:Hfiles.
  - split; [|done]. intros _. right. exists folder. split; [done|].
    intros p Hp Hpre Hne Hext.
    assert (p ∈ walk_images disk folder) as Hin
      by by apply elem_of_walk_images.
    rewrite Hfiles in Hin. by apply elem_of_nil in Hin.
  - split; [done|]. intros [?|(folder' & Heq & Hnone)]; [done|].
    injection Heq as <-.
    assert (f ∈ walk_images disk folder) as Hin
      by (rewrite Hfiles; apply list_elem_of_here).
    apply elem_of_walk_images in Hin as (Hf & Hpre & Hne & Hext).
    exfalso. exact (Hnone f Hf Hpre Hne Hext).
Qed.

(** ** The two folder dialogs *)

(** X18.  A cancelled destination dialog forgets the destination: the
    next run changes only files that lie directly in the folder the last
    destination dialog returned, or in the source folder when that
    dialog was cancelled, whatever had been chosen before; a cancelled
    source dialog changes nothing. *)
Theorem X18_cancelled_destination_means_in_place (w : World)
    (disk : gmap Path.t file) (win : Window) (answer : option Path.t)
    (st : State) (g : Widgets) (p : Path.t) :
  run w disk (choose_dest answer win) = Some (st, g) →
  fs st !! p ≠ disk !! p →
  run w disk (choose_src None (choose_dest answer win)) = Some (st, g)
  ∧ ∃ folder nm,
      win_src_folder win = Some folder
      ∧ p = Path.div (default folder answer) nm.
Proof.
  intros Hrun Hdiff. split; [done|].
  destruct (run_changes w disk (choose_dest answer win) st g p Hrun)
    as (folder & Hsrc & _ & [Hsame|([nm Hnm] & _)]); [done|].
  exists folder, nm. by destruct answer.
Qed.

Lemma X18_cancelled_destination_means_in_place_witness :
  ∃ nm, Example.written = Path.div Example.photos nm.
Proof.
  assert (run Example.calm Example.tree
            (choose_dest None (choose_dest (Some Example.out) Example.window))
          = Some (Example.after, Example.shown)) as Hrun
    by (vm_compute; reflexivity).
  assert (fs Example.after !! Example.written
          ≠ Example.tree !! Example.written) as Hdiff
    by (vm_compute; discriminate).
  destruct (X18_cancelled_destination_means_in_place _ _ _ _ _ _ _ Hrun Hdiff)
    as (_ & folder & nm & Hsrc & Hp).
  injection Hsrc as <-. exists nm. exact Hp.
Defined.

(** ** The summary against the log *)

Lemma optimize_image_sizes w src d q c st :
  let st' := optimize_image w src d q c st in
  ∃ l,
    log_queue st' = log_queue st ++ [LogLine l]
    ∧ total_original_bytes (stats st')
      = total_original_bytes (stats st) + (logged_sizes l).1
    ∧ total_optimized_bytes (stats st')
      = total_optimized_bytes (stats st) + (logged_sizes l).2.
Proof.
  intros st'. subst st'.
  pose proof (optimize_body_spec w src d q c st) as H.
  destruct (optimize_body w src d q c st) as [[u|e] st1] eqn:Hb.
  - rewrite (optimize_image_ok _ _ _ _ _ _ _ _ Hb).
    destruct H as (im & cp & _ & _ & _ & _ & fsrc & _ & Hs & Hl).
    eexists. split; [exact Hl|]. rewrite Hs. by split.
  - rewrite (optimize_image_raise _ _ _ _ _ _ _ _ Hb).
    destruct H as (cs & (_ & Hs & Hl) & _). simpl. rewrite Hs, Hl.
    exists (failure_line src e). split; [done|]. destruct e; simpl; lia.
Qed.

Lemma worker_loop_sizes w d q c files : ∀ idx st,
  let st' := worker_loop w d q c idx files st in
  ∃ lines,
    log_queue st' = log_queue st ++ run_events idx lines
    ∧ total_original_bytes (stats st')
      = total_original_bytes (stats st) + logged_original lines
    ∧ total_optimized_bytes (stats st')
      = total_optimized_bytes (stats st) + logged_optimized lines.
Proof.
  induction files as [|f files IH]; intros idx st; simpl.
  - exists []. simpl. rewrite app_nil_r. repeat split; lia.
  - destruct (optimize_image_sizes w f d q c st) as (l & Hl & Ho & Hn).
    set (st1 := optimize_image w f d q c st) in *.
    destruct (IH (idx + 1) (put (Progress idx) st1))
      as (lines & Hlog & Horig & Hopt).
    exists (l :: lines). rewrite Hlog, Horig, Hopt. simpl. rewrite Hl, Ho, Hn.
    split; [by rewrite <- !app_assoc|]. split; lia.
Qed.

(** X19.  The byte totals behind the summary are the sums of the sizes
    shown in the log box: those of the lines of the optimized files, and
    nothing for a file that failed. *)
Theorem X19_the_summary_adds_up_the_log (w : World) (disk : gmap Path.t file)
    (win : Window) (st : State) (g : Widgets) :
  run w disk win = Some (st, g) →
  summary_var g = SummaryOf (stats st)
  ∧ total_original_bytes (stats st) = logged_original (log_txt g)
  ∧ total_optimized_bytes (stats st) = logged_optimized (log_txt g).
Proof.
  intros Hrun.
  destruct (run_Some _ _ _ _ _ Hrun)
    as (app & files & stats0 & g0 & Hstart & -> & ->).
  destruct (start_WorkerStarted _ _ _ _ _ _ Hstart)
    as (folder & _ & _ & _ & _ & -> & ->).
  unfold worker.
  destruct (worker_loop_sizes w (default (src_folder app) (dest_folder app))
              (quality_var app) (png_var app) files 1
              (mkState disk Stats_init [] []))
    as (lines & Hlog & Horig & Hopt).
  simpl in Hlog, Horig, Hopt |- *.
  rewrite Hlog, drain_log_queue_app, drain_run_events by done. simpl.
  rewrite Horig, Hopt. by repeat split.
Qed.

Lemma X19_the_summary_adds_up_the_log_witness :
  total_original_bytes (stats Example.after)
  = logged_original (log_txt Example.shown).
Proof.
  assert (run Example.calm Example.tree Example.window
          = Some (Example.after, Example.shown)) as Hrun
    by (vm_compute; reflexivity).
  exact (proj1 (proj2 (X19_the_summary_adds_up_the_log _ _ _ _ _ Hrun))).
Defined.

(** ** A run in which nothing goes wrong *)

Lemma worker_loop_no_fault w d q c files : ∀ idx st,
  no_fault w →
  (∀ f, f ∈ files → is_Some (source_image (fs st) f) ∧ Path.parent f ≠ d) →
  let st' := worker_loop w d q c idx files st in
  failures (stats st') = failures (stats st)
  ∧ optimized_files (stats st')
    = optimized_files (stats st) + Z.of_nat (length files).
Proof.
  induction files as [|f files IH]; intros idx st Hw Hfiles; simpl.
  { split; [done|lia]. }
  destruct (Hfiles f (list_elem_of_here _ _)) as ([im Him] & _).
  pose proof (optimize_body_no_fault w d q c f st im Hw Him) as Hok.
  pose proof (optimize_body_spec w f d q c st) as H.
  pose proof (λ p, optimize_image_changes w f d q c st p) as Hchanges.
  destruct (optimize_body w f d q c st) as [[[]|e] st1] eqn:Hb; [|done].
  rewrite (optimize_image_ok _ _ _ _ _ _ _ _ Hb) in Hchanges |- *.
  destruct H as (im' & cp & _ & _ & _ & _ & fsrc & _ & Hs & _).
  destruct (IH (idx + 1) (put (Progress idx) st1) Hw) as (Hfail & Hopt).
  { intros f' Hf'.
    destruct (Hfiles f' (list_elem_of_further _ _ _ Hf')) as (Hsome & Hpar).
    split; [|done]. simpl.
    destruct (Hchanges f') as [Heq|([nm Hnm] & _)].
    - unfold source_image in *. by rewrite Heq.
    - exfalso. apply Hpar. rewrite Hnm. apply PathFacts.parent_div. }
  rewrite Hfail, Hopt. simpl. rewrite Hs. simpl. split; [done|lia].
Qed.

(** X20.  When no call raises, every file of the scan decodes and none
    of them lies directly in the destination folder, the run optimizes
    every file: [failures] stays empty and [optimized_files] is the
    number of files of the scan. *)
Theorem X20_nothing_fails_without_faults (w : World) (disk : gmap Path.t file)
    (win : Window) (folder : Path.t) (st : State) (g : Widgets) :
  run w disk win = Some (st, g) →
  win_src_folder win = Some folder →
  no_fault w →
  (∀ f, f ∈ walk_images disk folder →
        is_Some (disk !! f ≫= decoded)
        ∧ Path.parent f ≠ default folder (win_dest_folder win)) →
  failures (stats st) = []
  ∧ optimized_files (stats st) = Z.of_nat (length (walk_images disk folder)).
Proof.
  intros Hrun Hsrc Hw Hfiles.
  destruct (run_Some _ _ _ _ _ Hrun)
    as (app & files & stats0 & g0 & Hstart & -> & _).
  destruct (start_WorkerStarted _ _ _ _ _ _ Hstart)
    as (folder' & Hsrc' & -> & _ & -> & -> & _).
  rewrite Hsrc in Hsrc'. injection Hsrc' as <-.
  unfold worker. simpl.
  destruct (worker_loop_no_fault w (default folder (win_dest_folder win))
              (win_quality win) (win_png win) (walk_images disk folder) 1
              (mkState disk Stats_init [] []) Hw)
    as (Hfail & Hopt).
  { intros f Hf. destruct (Hfiles f Hf) as ([im0 Him0] & Hpar).
    split; [|done]. unfold source_image. simpl. rewrite Him0. by eexists. }
  by rewrite Hfail, Hopt.
Qed.

Lemma X20_nothing_fails_without_faults_witness :
  ∃ st g,
    run Example.calm Example.png_tree Example.window_out = Some (st, g)
    ∧ failures (stats st) = [].
Proof.
  destruct (run Example.calm Example.png_tree Example.window_out)
    as [[st g]|] eqn:Hrun; [|vm_compute in Hrun; discriminate].
  exists st, g. split; [reflexivity|].
  refine (proj1 (X20_nothing_fails_without_faults Example.calm Example.png_tree
                   Example.window_out Example.photos st g Hrun eq_refl _ _)).
  - intros h c. reflexivity.
  - intros f Hf.
    assert (walk_images Example.png_tree Example.photos = [Example.icon])
      as Hscan by (vm_compute; reflexivity).
    rewrite Hscan in Hf. apply list_elem_of_singleton in Hf as ->.
    split; [vm_compute; by eexists|vm_compute; discriminate].
Defined.
